(** * The ledger engine of edu-finance-system (src/app.py)

    A shallow embedding of the [Account] and [Transaction] dataclasses and of
    the [DataStore] class, with the properties of the ledger proved about it.

    Conventions of the model.
    - Python [int] is [Z]; [str] is [string]; a [list] is a [list]; the
      dictionaries used as maps ([settings], [by_category], [acc_by_id]) are
      [gmap]s.
    - Amounts are Python [float]s in the source.  The development is
      parametric in the number type: a carrier [A] with a zero, an addition and
      the comparison [<=].  Every loop of the source is embedded with its own
      order of additions, and the statements about the loops assume nothing
      about the carrier: they hold of binary floats, with which the carrier is
      instantiated at the end of the file (IEEE 754 binary64, [PrimFloat]).
      Where a statement needs arithmetic laws (a sum that is re-associated, a
      sign rule), they are the laws of exact numbers, collected in
      [ExactArith], which floats do not satisfy; such a statement names them
      as its hypothesis.
    - A [datetime] is naive (no time zone), a record of its calendar fields.
    - The clock ([datetime.now()]) is an argument of the operation reading it.
    - The file at [self.path] is the field [disk] of the store; it holds what
      [json.load] makes of the file: no file, a text that does not parse, or a
      JSON value.  A JSON object is a record whose keys may be missing; a key
      holding a value of another JSON type than the field it feeds is outside
      the model, and so are failures of the operating system while reading or
      writing.
    - An exception is a value of [exn]; code that can raise returns a
      [result], and the body of the [try] in [load] runs in [Try], which keeps
      the assignments made before the exception.  A method embedded as a total
      function of the store raises nothing. *)

From Stdlib Require Import PrimFloat.
From Stdlib Require Import ZArith String Ascii List Lia Bool Permutation Sorted.
From stdpp Require Import gmap strings list fin_maps pretty.
Import ListNotations.
Local Open Scope Z_scope.
Local Open Scope string_scope.
Local Open Scope list_scope.

(** ** datetime *)

Module DateTime.

Record t : Type := mk {
  year : Z;
  month : Z;
  day : Z;
  hour : Z;
  minute : Z;
  second : Z;
  microsecond : Z
}.

(** The fields in the order in which two datetimes are compared. *)
Definition key (d : t) : list Z :=
  [year d; month d; day d; hour d; minute d; second d; microsecond d].

(** Lexicographic [<] on keys. *)
Fixpoint lex_ltb (k1 k2 : list Z) : bool :=
  match k1, k2 with
  | x :: k1', y :: k2' => (x <? y)%Z || ((x =? y)%Z && lex_ltb k1' k2')
  | [], _ :: _ => true
  | _, [] => false
  end.

(** [d1 < d2] *)
Definition ltb (d1 d2 : t) : bool := lex_ltb (key d1) (key d2).

Definition is_leap (y : Z) : bool :=
  ((y mod 4 =? 0) && negb (y mod 100 =? 0) || (y mod 400 =? 0))%Z.

Definition days_in_month (y m : Z) : Z :=
  if (m =? 2)%Z then (if is_leap y then 29 else 28)
  else if ((m =? 4) || (m =? 6) || (m =? 9) || (m =? 11))%Z then 30
  else 31.

(** The invariant of every [datetime] object (its constructor checks it). *)
Definition valid (d : t) : Prop :=
  (1 <= year d <= 9999 /\ 1 <= month d <= 12 /\
   1 <= day d <= days_in_month (year d) (month d) /\
   0 <= hour d <= 23 /\ 0 <= minute d <= 59 /\ 0 <= second d <= 59 /\
   0 <= microsecond d <= 999999)%Z.

Definition validb (d : t) : bool :=
  ((1 <=? year d) && (year d <=? 9999) && (1 <=? month d) && (month d <=? 12) &&
   (1 <=? day d) && (day d <=? days_in_month (year d) (month d)) &&
   (0 <=? hour d) && (hour d <=? 23) && (0 <=? minute d) && (minute d <=? 59) &&
   (0 <=? second d) && (second d <=? 59) &&
   (0 <=? microsecond d) && (microsecond d <=? 999999))%Z.

(** *** Text forms *)

Definition digit_char (n : Z) : ascii := ascii_of_nat (48 + Z.to_nat n).

Definition digit_value (c : ascii) : option Z :=
  let n := nat_of_ascii c in
  if (48 <=? n)%nat && (n <=? 57)%nat then Some (Z.of_nat n - 48)%Z else None.

(** ["%0wd" % n], for [0 <= n < 10^w]: most significant digit first. *)
Fixpoint zpad (w : nat) (n : Z) : string :=
  match w with
  | O => ""
  | S w' => String (digit_char (n / 10 ^ Z.of_nat w')) (zpad w' (n mod 10 ^ Z.of_nat w'))
  end.

(** Reads exactly [w] decimal digits at the head of [s]. *)
Fixpoint take_digits (w : nat) (acc : Z) (s : string) : option (Z * string) :=
  match w with
  | O => Some (acc, s)
  | S w' =>
      match s with
      | String c s' =>
          match digit_value c with
          | Some v => take_digits w' (10 * acc + v) s'
          | None => None
          end
      | EmptyString => None
      end
  end.

Definition expect (c : ascii) (s : string) : option string :=
  match s with
  | String c' s' => if Ascii.eqb c c' then Some s' else None
  | EmptyString => None
  end.

(** [d.isoformat()]: [YYYY-MM-DDTHH:MM:SS], followed by [.ffffff] when the
    microsecond is not 0. *)
Definition isoformat (d : t) : string :=
  zpad 4 (year d) +:+ "-" +:+ zpad 2 (month d) +:+ "-" +:+ zpad 2 (day d) +:+ "T" +:+
  zpad 2 (hour d) +:+ ":" +:+ zpad 2 (minute d) +:+ ":" +:+ zpad 2 (second d) +:+
  (if (microsecond d =? 0)%Z then "" else "." +:+ zpad 6 (microsecond d)).

(** [datetime.fromisoformat(s)] on the two forms [isoformat] writes; [None]
    stands for [ValueError].  The library function reads further ISO 8601
    spellings (a date without a time, a time without seconds), which no record
    written by [save] uses; this definition does not read them.  It agrees
    with the library wherever it returns a datetime, and on a text that is no
    ISO 8601 date at all. *)
Definition fromisoformat (s : string) : option t :=
  '(y, s) ← take_digits 4 0 s; s ← expect "-" s;
  '(m, s) ← take_digits 2 0 s; s ← expect "-" s;
  '(dd, s) ← take_digits 2 0 s; s ← expect "T" s;
  '(h, s) ← take_digits 2 0 s; s ← expect ":" s;
  '(mi, s) ← take_digits 2 0 s; s ← expect ":" s;
  '(sec, s) ← take_digits 2 0 s;
  '(us, s) ← match s with
             | EmptyString => Some (0%Z, EmptyString)
             | String c s' => if Ascii.eqb c "." then take_digits 6 0 s' else None
             end;
  match s with
  | EmptyString =>
      let d := mk y m dd h mi sec us in
      if validb d then Some d else None
  | _ => None
  end.

(** [d.strftime('%Y-%m-%d %H:%M')].  The text is made by the [strftime] of
    the C library, and that of Linux writes [%Y] as the decimal numeral of the
    year without leading zeros: four digits from the year 1000 on, fewer
    before ([999-12-31 23:59]).  The other fields are written in two digits. *)
Definition strftime_Ymd_HM (d : t) : string :=
  pretty (year d) +:+ "-" +:+ zpad 2 (month d) +:+ "-" +:+ zpad 2 (day d) +:+ " " +:+
  zpad 2 (hour d) +:+ ":" +:+ zpad 2 (minute d).

End DateTime.

#[global] Instance DateTime_eq_dec : EqDecision DateTime.t.
Proof. solve_decision. Defined.

Definition BASE_CURRENCY : string := "RUB".

(** ** Exceptions *)

Inductive exn : Type :=
| KeyError (key : string)
| ValueError
| AttributeError
| JSONDecodeError
| FileNotFoundError.

Inductive result (X : Type) : Type :=
| Return (x : X)
| Raise (e : exn).
Arguments Return {X} x.
Arguments Raise {X} e.

(** A list comprehension [[f(item) for item in items]]: the first exception
    ends it. *)
Fixpoint comprehension {X Y : Type} (f : X -> result Y) (items : list X)
  : result (list Y) :=
  match items with
  | [] => Return []
  | item :: rest =>
      match f item with
      | Raise e => Raise e
      | Return y =>
          match comprehension f rest with
          | Raise e => Raise e
          | Return ys => Return (y :: ys)
          end
      end
  end.

(** [max(xs)] of a non-empty sequence [x :: xs]. *)
Definition max_of (x : Z) (xs : list Z) : Z := fold_left Z.max xs x.

(** [s.replace(old, new)] for one-character [old] and [new]. *)
Fixpoint replace_char (old new : ascii) (s : string) : string :=
  match s with
  | EmptyString => EmptyString
  | String c s' =>
      String (if Ascii.eqb c old then new else c) (replace_char old new s')
  end.

Definition newline : ascii := ascii_of_nat 10.


(** [text.split("\n")]: the lines of a text. *)
Fixpoint split_lines (s : string) : list string :=
  match s with
  | EmptyString => [EmptyString]
  | String c s' =>
      if Ascii.eqb c newline then EmptyString :: split_lines s'
      else match split_lines s' with
           | l :: ls => String c l :: ls
           | [] => [String c EmptyString]
           end
  end.

Definition dquote : string := String (ascii_of_nat 34) EmptyString.

Definition CSV_HEADER : string := "ID;Дата;Счет;Категория;Описание;Сумма;Валюта".

Section Ledger.

(** The number type of amounts and balances. *)
Context {A : Type}.
Variable fzero : A.                 (* 0.0 *)
Variable fadd : A -> A -> A.        (* x + y *)
Variable fle : A -> A -> bool.      (* x <= y *)
Variable str_amount : A -> string.  (* the text of x in an f-string *)

(** The laws of exact arithmetic (integers, rationals, decimals).  Binary
    floats do not satisfy them ([float_not_exact]). *)
Record ExactArith : Prop := {
  fadd_assoc : forall x y z, fadd x (fadd y z) = fadd (fadd x y) z;
  fadd_0_l : forall x, fadd fzero x = x;
  fadd_0_r : forall x, fadd x fzero = x;
  fle_total : forall x y, fle x y = false -> fle y x = true;
  fle_add : forall a b c d,
      fle a b = true -> fle c d = true -> fle (fadd a c) (fadd b d) = true
}.

(** The sum of a list of amounts. *)
Definition total_of (xs : list A) : A := fold_right fadd fzero xs.

(** ** Entity model *)

Record Account : Type := mkAccount {
  a_id : Z;
  a_name : string;
  a_acc_type : string;
  a_currency : string;
  a_initial_balance : A
}.

Record Transaction : Type := mkTransaction {
  t_id : Z;
  t_date : DateTime.t;
  t_account_id : Z;
  t_category : string;
  t_description : string;
  t_amount : A;
  t_currency : string
}.

(** ** The persisted file

    A JSON object read as a dictionary whose keys may be missing: each key
    is an [option].  The values have the JSON types [save] writes: a file in
    which a key holds a value of another type (a balance that is a text,
    settings that are [null]) is outside the model; on such a file [float],
    [int], [max] or [settings.update] can raise as well. *)

Record AccountDict : Type := mkAccountDict {
  ad_id : option Z;
  ad_name : option string;
  ad_acc_type : option string;
  ad_currency : option string;
  ad_initial_balance : option A
}.

Record TransactionDict : Type := mkTransactionDict {
  td_id : option Z;
  td_date : option string;
  td_account_id : option Z;
  td_category : option string;
  td_description : option string;
  td_amount : option A;
  td_currency : option string
}.

Record RawDoc : Type := mkRawDoc {
  raw_accounts : option (list AccountDict);
  raw_transactions : option (list TransactionDict);
  raw_settings : option (gmap string string)
}.

(** The value [json.load] returns: an object, or any other JSON value. *)
Inductive Json : Type :=
| JsonObject (raw : RawDoc)
| JsonOther.

Inductive File : Type :=
| NoFile                       (* os.path.exists(path) is False *)
| Unparsable (text : string)   (* json.load raises on this text *)
| Parsed (v : Json).           (* json.load returns v *)

Definition Account_to_dict (self : Account) : AccountDict :=
  {| ad_id := Some (a_id self);
     ad_name := Some (a_name self);
     ad_acc_type := Some (a_acc_type self);
     ad_currency := Some (a_currency self);
     ad_initial_balance := Some (a_initial_balance self) |}.

(** [data["id"]] and [data["name"]] raise [KeyError] when the key is missing;
    the other keys have defaults.  [float(x)] of a number is that number. *)
Definition Account_from_dict (data : AccountDict) : result Account :=
  match ad_id data with
  | None => Raise (KeyError "id")
  | Some i =>
      match ad_name data with
      | None => Raise (KeyError "name")
      | Some n =>
          Return {| a_id := i;
                    a_name := n;
                    a_acc_type := default "Счет" (ad_acc_type data);
                    a_currency := default BASE_CURRENCY (ad_currency data);
                    a_initial_balance := default fzero (ad_initial_balance data) |}
      end
  end.

Definition Transaction_to_dict (self : Transaction) : TransactionDict :=
  {| td_id := Some (t_id self);
     td_date := Some (DateTime.isoformat (t_date self));
     td_account_id := Some (t_account_id self);
     td_category := Some (t_category self);
     td_description := Some (t_description self);
     td_amount := Some (t_amount self);
     td_currency := Some (t_currency self) |}.

(** [data["id"]] and [data["date"]] raise [KeyError] when the key is missing,
    and [fromisoformat] raises [ValueError] on a text it cannot read; the other
    keys have defaults.  [int(x)] of an integer and [float(x)] of a number are
    that number. *)
Definition Transaction_from_dict (data : TransactionDict) : result Transaction :=
  match td_id data with
  | None => Raise (KeyError "id")
  | Some i =>
      match td_date data with
      | None => Raise (KeyError "date")
      | Some text =>
          match DateTime.fromisoformat text with
          | None => Raise ValueError
          | Some d =>
              Return {| t_id := i;
                        t_date := d;
                        t_account_id := default 1%Z (td_account_id data);
                        t_category := default "Прочие операционные расходы" (td_category data);
                        t_description := default "" (td_description data);
                        t_amount := default fzero (td_amount data);
                        t_currency := default BASE_CURRENCY (td_currency data) |}
          end
      end
  end.

(** ** DataStore

    The attributes of the instance, and the file at [self.path] as [disk]. *)

Record DataStore : Type := mkDataStore {
  accounts : list Account;
  transactions : list Transaction;
  settings : gmap string string;
  next_acc_id : Z;
  next_tx_id : Z;
  disk : File
}.

Definition set_accounts (v : list Account) (self : DataStore) : DataStore :=
  mkDataStore v (transactions self) (settings self) (next_acc_id self) (next_tx_id self) (disk self).
Definition set_transactions (v : list Transaction) (self : DataStore) : DataStore :=
  mkDataStore (accounts self) v (settings self) (next_acc_id self) (next_tx_id self) (disk self).
Definition set_settings (v : gmap string string) (self : DataStore) : DataStore :=
  mkDataStore (accounts self) (transactions self) v (next_acc_id self) (next_tx_id self) (disk self).
Definition set_next_acc_id (v : Z) (self : DataStore) : DataStore :=
  mkDataStore (accounts self) (transactions self) (settings self) v (next_tx_id self) (disk self).
Definition set_next_tx_id (v : Z) (self : DataStore) : DataStore :=
  mkDataStore (accounts self) (transactions self) (settings self) (next_acc_id self) v (disk self).
Definition set_disk (v : File) (self : DataStore) : DataStore :=
  mkDataStore (accounts self) (transactions self) (settings self) (next_acc_id self) (next_tx_id self) v.

(** *** load / save *)

(** [save]: the whole state is written to the file, every key of every
    record present. *)
Definition save (self : DataStore) : DataStore :=
  set_disk
    (Parsed (JsonObject
       {| raw_accounts := Some (map Account_to_dict (accounts self));
          raw_transactions := Some (map Transaction_to_dict (transactions self));
          raw_settings := Some (settings self) |}))
    self.

(** The body of a [try]: it runs on the store and ends with a value or an
    exception; the assignments made before the exception stay. *)
Definition Try (X : Type) : Type := DataStore -> DataStore * result X.

Definition bind {X Y : Type} (m : Try X) (k : X -> Try Y) : Try Y :=
  fun self =>
    match m self with
    | (self', Return x) => k x self'
    | (self', Raise e) => (self', Raise e)
    end.

Definition lift {X : Type} (r : result X) : Try X := fun self => (self, r).

Definition assign (f : DataStore -> DataStore) : Try unit :=
  fun self => (f self, Return tt).

Definition read {X : Type} (f : DataStore -> X) : Try X :=
  fun self => (self, Return (f self)).

(** [try: body / except Exception as e: print(...)] *)
Definition try_except (body : Try unit) (self : DataStore) : DataStore :=
  fst (body self).

Local Notation "x <- m ;; k" := (bind m (fun x => k))
  (at level 100, m at next level, right associativity).
Local Notation "m ;;; k" := (bind m (fun _ => k))
  (at level 100, right associativity).

(** [with open(self.path) as f: raw = json.load(f)] *)
Definition json_load (f : File) : result Json :=
  match f with
  | Parsed v => Return v
  | Unparsable _ => Raise JSONDecodeError
  | NoFile => Raise FileNotFoundError
  end.

(** [raw.get(key, default)]: an attribute only a dictionary has. *)
Definition raw_get {X : Type} (raw : Json) (field : RawDoc -> option X) (dflt : X)
  : result X :=
  match raw with
  | JsonObject doc => Return (default dflt (field doc))
  | JsonOther => Raise AttributeError
  end.

Definition load_body : Try unit :=
  f <- read disk ;;
  raw <- lift (json_load f) ;;
  items <- lift (raw_get raw raw_accounts []) ;;
  accs <- lift (comprehension Account_from_dict items) ;;
  assign (set_accounts accs) ;;;
  items <- lift (raw_get raw raw_transactions []) ;;
  txs <- lift (comprehension Transaction_from_dict items) ;;
  assign (set_transactions txs) ;;;
  assign (fun self =>
            match accounts self with
            | a :: rest => set_next_acc_id (max_of (a_id a) (map a_id rest) + 1) self
            | [] => self
            end) ;;;
  assign (fun self =>
            match transactions self with
            | t :: rest => set_next_tx_id (max_of (t_id t) (map t_id rest) + 1) self
            | [] => self
            end) ;;;
  upd <- lift (raw_get raw raw_settings ∅) ;;
  assign (fun self => set_settings (upd ∪ settings self) self).

(** [load]: nothing to do without a file; else the body runs in a [try]
    whose handler prints the exception. *)
Definition load (self : DataStore) : DataStore :=
  match disk self with
  | NoFile => self
  | _ => try_except load_body self
  end.

(** *** Accounts *)

Definition add_account (self : DataStore)
    (name acc_type currency : string) (initial_balance : A)
  : DataStore * Account :=
  let acc := {| a_id := next_acc_id self;
                a_name := name;
                a_acc_type := acc_type;
                a_currency := currency;
                a_initial_balance := initial_balance |} in
  let self := set_accounts (accounts self ++ [acc]) self in
  let self := set_next_acc_id (next_acc_id self + 1) self in
  (save self, acc).

(** The first account with the id, or [None]. *)
Definition get_account_by_id (self : DataStore) (acc_id : Z) : option Account :=
  List.find (fun acc => (a_id acc =? acc_id)%Z) (accounts self).

(** The object [get_account_by_id] returns is the one in the list: assigning
    to its attributes changes the first element with the id. *)
Fixpoint assign_first {X : Type} (p : X -> bool) (f : X -> X) (l : list X) : list X :=
  match l with
  | [] => []
  | x :: rest => if p x then f x :: rest else x :: assign_first p f rest
  end.

Definition update_account (self : DataStore) (acc_id : Z)
    (name acc_type : string) (initial_balance : A) : DataStore :=
  match get_account_by_id self acc_id with
  | None => self
  | Some _ =>
      save (set_accounts
              (assign_first (fun acc => (a_id acc =? acc_id)%Z)
                 (fun acc => {| a_id := a_id acc;
                                a_name := name;
                                a_acc_type := acc_type;
                                a_currency := a_currency acc;
                                a_initial_balance := initial_balance |})
                 (accounts self))
              self)
  end.

Definition get_accounts (self : DataStore) : list Account := accounts self.

Definition get_account_balance (self : DataStore) (acc_id : Z) : A :=
  match get_account_by_id self acc_id with
  | None => fzero
  | Some acc =>
      fold_left
        (fun total t =>
           if (t_account_id t =? acc_id)%Z && (t_currency t =? a_currency acc)%string
           then fadd total (t_amount t)
           else total)
        (transactions self) (a_initial_balance acc)
  end.

Definition get_overall_balance (self : DataStore) : A :=
  fold_left
    (fun total acc => fadd total (get_account_balance self (a_id acc)))
    (accounts self) fzero.

(** *** Transactions *)

Definition add_transaction (self : DataStore) (now : DateTime.t)
    (account_id : Z) (amount : A) (category description : string)
    (date : option DateTime.t) : DataStore * Transaction :=
  let date := default now date in
  let tx := {| t_id := next_tx_id self;
               t_date := date;
               t_account_id := account_id;
               t_category := category;
               t_description := description;
               t_amount := amount;
               t_currency := BASE_CURRENCY |} in
  let self := set_transactions (transactions self ++ [tx]) self in
  let self := set_next_tx_id (next_tx_id self + 1) self in
  (save self, tx).

Definition get_transaction_by_id (self : DataStore) (tx_id : Z) : option Transaction :=
  List.find (fun t => (t_id t =? tx_id)%Z) (transactions self).

Definition update_transaction (self : DataStore) (tx_id account_id : Z)
    (amount : A) (category description : string) : DataStore :=
  match get_transaction_by_id self tx_id with
  | None => self
  | Some _ =>
      save (set_transactions
              (assign_first (fun t => (t_id t =? tx_id)%Z)
                 (fun tx => {| t_id := t_id tx;
                               t_date := t_date tx;
                               t_account_id := account_id;
                               t_category := category;
                               t_description := description;
                               t_amount := amount;
                               t_currency := t_currency tx |})
                 (transactions self))
              self)
  end.

Definition delete_transaction (self : DataStore) (tx_id : Z) : DataStore :=
  save (set_transactions
          (List.filter (fun t => negb (t_id t =? tx_id)%Z) (transactions self))
          self).

(** [sorted(xs, key=lambda t: t.date, reverse=True)].  The built-in sort is
    stable, also with [reverse=True]: elements with equal keys keep the order
    they have in [xs].  The result of a stable sort does not depend on the
    algorithm ([sorted_reverse_unique]); here it is an insertion sort. *)
Fixpoint insert_by_date (t : Transaction) (sorted : list Transaction)
  : list Transaction :=
  match sorted with
  | [] => [t]
  | u :: rest =>
      if DateTime.ltb (t_date t) (t_date u)
      then u :: insert_by_date t rest
      else t :: u :: rest
  end.

Definition sorted_by_date_reverse (xs : list Transaction) : list Transaction :=
  fold_right insert_by_date [] xs.

Definition get_transactions (self : DataStore) : list Transaction :=
  sorted_by_date_reverse (transactions self).

Definition same_month (d now : DateTime.t) : bool :=
  (DateTime.year d =? DateTime.year now)%Z && (DateTime.month d =? DateTime.month now)%Z.

(** One turn of the loop of [get_month_summary]. *)
Definition month_step (now : DateTime.t) (acc : A * A * gmap string A) (t : Transaction)
  : A * A * gmap string A :=
  let '(income, expense, by_category) := acc in
  if same_month (t_date t) now then
    let '(income, expense) :=
      if fle fzero (t_amount t)
      then (fadd income (t_amount t), expense)
      else (income, fadd expense (t_amount t)) in
    (income, expense,
     <[t_category t :=
         fadd (default fzero (by_category !! t_category t)) (t_amount t)]>
       by_category)
  else (income, expense, by_category).

Definition get_month_summary (self : DataStore) (now : DateTime.t)
  : A * A * gmap string A :=
  fold_left (month_step now) (transactions self) (fzero, fzero, ∅).

(** *** Export *)

(** [{a.id: a for a in self.accounts}]: a later account with the same id
    replaces an earlier one. *)
Definition acc_by_id (self : DataStore) : gmap Z Account :=
  fold_left (fun m a => <[a_id a := a]> m) (accounts self) ∅.

(** One turn of the loop of [export_csv]: the line of the transaction [t]. *)
Definition csv_line (self : DataStore) (t : Transaction) : string :=
  let acc_name :=
    match acc_by_id self !! t_account_id t with
    | Some acc => a_name acc
    | None => "?"
    end in
  let desc := replace_char ";" "," (t_description t) in
  pretty (t_id t) +:+ ";" +:+ DateTime.strftime_Ymd_HM (t_date t) +:+ ";" +:+
  acc_name +:+ ";" +:+ t_category t +:+ ";" +:+ dquote +:+ desc +:+ dquote +:+ ";" +:+
  str_amount (t_amount t) +:+ ";" +:+ BASE_CURRENCY.

(** The list [lines] of [export_csv]. *)
Definition export_csv_lines (self : DataStore) : list string :=
  CSV_HEADER :: map (csv_line self) (get_transactions self).

(** The text [export_csv] writes to the report file. *)
Definition export_csv (self : DataStore) : string :=
  String.concat (String newline EmptyString) (export_csv_lines self).

(** *** Construction *)

(** The attributes as [__init__] sets them before it calls [load]. *)
Definition fresh (dk : File) : DataStore :=
  {| accounts := [];
     transactions := [];
     settings := {[ "user_name" := "Компания" ]};
     next_acc_id := 1;
     next_tx_id := 1;
     disk := dk |}.

(** [DataStore()] on a disk [dk]. *)
Definition init (dk : File) : DataStore :=
  let self := load (fresh dk) in
  match accounts self with
  | [] => save (fst (add_account self "Расчетный счет" "Карта" BASE_CURRENCY fzero))
  | _ :: _ => self
  end.

(** ** The vocabulary of the statements *)

(** The transactions counted in the balance of the account [acc_id] whose
    currency is [cur]. *)
Definition counts_for (acc_id : Z) (cur : string) (t : Transaction) : Prop :=
  t_account_id t = acc_id /\ t_currency t = cur.

#[global] Instance counts_for_dec acc_id cur t : Decision (counts_for acc_id cur t).
Proof. unfold counts_for. apply _. Defined.

(** The transactions of the month of [now]. *)
Definition in_month (now : DateTime.t) (t : Transaction) : Prop :=
  DateTime.year (t_date t) = DateTime.year now /\
  DateTime.month (t_date t) = DateTime.month now.

#[global] Instance in_month_dec now t : Decision (in_month now t).
Proof. unfold in_month. apply _. Defined.

(** A transaction moved to another account and currency. *)
Definition retarget (account_id : Z) (currency : string) (t : Transaction) : Transaction :=
  {| t_id := t_id t; t_date := t_date t; t_account_id := account_id;
     t_category := t_category t; t_description := t_description t;
     t_amount := t_amount t; t_currency := currency |}.

(** The id the ledger is to issue next: the largest id in use plus 1, or 1. *)
Definition next_id_after (ids : list Z) : Z :=
  match ids with
  | [] => 1
  | i :: rest => max_of i rest + 1
  end.




(** [t] is not dated before [u]: the order of two neighbours in a list sorted
    by date, latest first. *)
Definition not_before (t u : Transaction) : Prop :=
  DateTime.ltb (t_date t) (t_date u) = false.



(** ** Further methods, and sequences of calls *)


(** A call of one of the methods that change the ledger, with its arguments;
    [now] is the clock at the time of an [add_transaction]. *)
Inductive Call : Type :=
| CallAddAccount (name acc_type currency : string) (initial_balance : A)
| CallUpdateAccount (acc_id : Z) (name acc_type : string) (initial_balance : A)
| CallAddTransaction (now : DateTime.t) (account_id : Z) (amount : A)
    (category description : string) (date : option DateTime.t)
| CallUpdateTransaction (tx_id account_id : Z) (amount : A)
    (category description : string)
| CallDeleteTransaction (tx_id : Z).

Definition call (self : DataStore) (c : Call) : DataStore :=
  match c with
  | CallAddAccount name acc_type currency initial_balance =>
      (add_account self name acc_type currency initial_balance).1
  | CallUpdateAccount acc_id name acc_type initial_balance =>
      update_account self acc_id name acc_type initial_balance
  | CallAddTransaction now account_id amount category description date =>
      (add_transaction self now account_id amount category description date).1
  | CallUpdateTransaction tx_id account_id amount category description =>
      update_transaction self tx_id account_id amount category description
  | CallDeleteTransaction tx_id => delete_transaction self tx_id
  end.

(** The calls of a session, one after the other. *)
Definition run_calls (self : DataStore) (cs : list Call) : DataStore :=
  fold_left call cs self.

(** Ids in strictly increasing order, all below the counter [next]. *)
Definition ids_below (next : Z) (ids : list Z) : Prop :=
  StronglySorted Z.lt ids /\ Forall (fun i => (i < next)%Z) ids.

(** Both lists of the store have their ids in order and below their counter. *)
Definition ids_wf (self : DataStore) : Prop :=
  ids_below (next_acc_id self) (map a_id (accounts self)) /\
  ids_below (next_tx_id self) (map t_id (transactions self)).

(** The file holds the state of the store. *)
Definition synced (self : DataStore) : Prop := save self = self.

(** The content of the file after the state of [self] was written to it: a
    JSON object with the three keys, every account and every transaction as a
    record of all its fields, and the settings. *)
Definition saved_file (self : DataStore) : File :=
  Parsed (JsonObject
    {| raw_accounts := Some (map Account_to_dict (accounts self));
       raw_transactions := Some (map Transaction_to_dict (transactions self));
       raw_settings := Some (settings self) |}).


(** What no call changes in an account: its id and its currency. *)
Definition account_key (a : Account) : Z * string := (a_id a, a_currency a).

(** [t] is [t0] after some updates: same id, date and currency. *)
Definition same_origin (t0 t : Transaction) : Prop :=
  t_id t0 = t_id t /\ t_date t0 = t_date t /\ t_currency t0 = t_currency t.


(** Every id of the two lists is below its counter. *)
Definition counters_above (self : DataStore) : Prop :=
  Forall (fun i => (i < next_acc_id self)%Z) (map a_id (accounts self)) /\
  Forall (fun i => (i < next_tx_id self)%Z) (map t_id (transactions self)).


(** The transaction is recorded on an account of the store, in the currency
    of that account: it is counted in a balance. *)
Definition booked (self : DataStore) (t : Transaction) : bool :=
  existsb
    (fun a => (t_account_id t =? a_id a)%Z && (t_currency t =? a_currency a)%string)
    (accounts self).




(** * Properties *)

(** ** Sums *)

(** A loop that adds [f t] to the total for the elements passing a test adds
    up, in order, the [f t] of the elements the test keeps. *)
Lemma accumulate_loop {X : Type} (p : X -> bool) (f : X -> A) (xs : list X) (start : A) :
  fold_left (fun total x => if p x then fadd total (f x) else total) xs start
  = fold_left fadd (map f (List.filter p xs)) start.
Proof.
  revert start. induction xs as [|x xs IH]; intros start; simpl; [reflexivity|].
  destruct (p x); simpl; apply IH.
Qed.

Section Exact.
Hypothesis arith : ExactArith.

Lemma fold_left_total (xs : list A) (start : A) :
  fold_left fadd xs start = fadd start (total_of xs).
Proof.
  revert start. induction xs as [|x xs IH]; intros start; simpl.
  - symmetry. apply (fadd_0_r arith).
  - rewrite IH. symmetry. apply (fadd_assoc arith).
Qed.

Lemma total_of_app (xs ys : list A) :
  total_of (xs ++ ys) = fadd (total_of xs) (total_of ys).
Proof.
  induction xs as [|x xs IH]; simpl.
  - symmetry. apply (fadd_0_l arith).
  - rewrite IH. apply (fadd_assoc arith).
Qed.

End Exact.

(** ** Account balances *)

Lemma counts_for_test (acc_id : Z) (cur : string) (ts : list Transaction) :
  List.filter (fun t => (t_account_id t =? acc_id)%Z && (t_currency t =? cur)%string) ts
  = filter (counts_for acc_id cur) ts.
Proof.
  induction ts as [|t ts IH]; [reflexivity|].
  simpl. rewrite filter_cons, IH.
  destruct (Z.eqb_spec (t_account_id t) acc_id) as [Hi|Hi];
    destruct (String.eqb_spec (t_currency t) cur) as [Hc|Hc]; simpl;
    destruct (decide (counts_for acc_id cur t)) as [[??]|Hn]; try reflexivity;
    try contradiction.
  exfalso. apply Hn. split; assumption.
Qed.

Lemma get_account_by_id_Some (self : DataStore) (acc_id : Z) (acc : Account) :
  get_account_by_id self acc_id = Some acc ->
  acc ∈ accounts self /\ a_id acc = acc_id.
Proof.
  unfold get_account_by_id. intros H. apply find_some in H as [Hin Heq].
  split; [apply list_elem_of_In; exact Hin | apply Z.eqb_eq; exact Heq].
Qed.

Lemma get_account_by_id_None (self : DataStore) (acc_id : Z) :
  get_account_by_id self acc_id = None <->
  (forall acc, acc ∈ accounts self -> a_id acc <> acc_id).
Proof.
  unfold get_account_by_id. split.
  - intros H acc Hin. apply list_elem_of_In in Hin.
    apply Z.eqb_neq. exact (find_none _ _ H acc Hin).
  - intros H. destruct (find _ _) as [acc|] eqn:E; [|reflexivity].
    apply find_some in E as [Hin Heq]. apply Z.eqb_eq in Heq.
    exfalso. apply (H acc); [apply list_elem_of_In; exact Hin | exact Heq].
Qed.

(** The loop of [get_account_balance], for any number type: the amounts of
    the counted transactions are added to the initial balance in the order of
    the list. *)
Lemma get_account_balance_loop (self : DataStore) (acc_id : Z) (acc : Account) :
  get_account_by_id self acc_id = Some acc ->
  get_account_balance self acc_id
  = fold_left fadd
      (map t_amount (filter (counts_for acc_id (a_currency acc)) (transactions self)))
      (a_initial_balance acc).
Proof.
  intros H. unfold get_account_balance. rewrite H.
  rewrite accumulate_loop, counts_for_test. reflexivity.
Qed.

(** C1. For every store and id, whatever the number type (binary floats
    included): when an account has the id, [get_account_balance acc_id] is the
    initial balance of the first such account with the amounts added to it,
    one after the other in stored order, of exactly the transactions whose
    [account_id] is [acc_id] and whose currency is the account's; a
    transaction in another currency adds nothing.  In exact arithmetic that
    is the initial balance plus the sum of those amounts, however the sum is
    grouped.  When no account has the id, the balance is 0. *)
Theorem get_account_balance_spec (self : DataStore) (acc_id : Z) :
  (forall acc, get_account_by_id self acc_id = Some acc ->
     acc ∈ accounts self /\ a_id acc = acc_id /\
     get_account_balance self acc_id
     = fold_left fadd
         (map t_amount (filter (counts_for acc_id (a_currency acc)) (transactions self)))
         (a_initial_balance acc) /\
     (ExactArith ->
      get_account_balance self acc_id
      = fadd (a_initial_balance acc)
          (total_of (map t_amount
             (filter (counts_for acc_id (a_currency acc)) (transactions self)))))) /\
  ((exists acc, acc ∈ accounts self /\ a_id acc = acc_id) ->
     is_Some (get_account_by_id self acc_id)) /\
  ((forall acc, acc ∈ accounts self -> a_id acc <> acc_id) ->
     get_account_balance self acc_id = fzero).
Proof.
  split; [|split].
  - intros acc H. destruct (get_account_by_id_Some _ _ _ H) as [Hin Hid].
    split; [exact Hin|]. split; [exact Hid|].
    rewrite (get_account_balance_loop _ _ _ H). split; [reflexivity|].
    intros arith. apply fold_left_total, arith.
  - intros (acc & Hin & Hid).
    destruct (get_account_by_id self acc_id) eqn:E; [eexists; reflexivity|].
    exfalso. exact (proj1 (get_account_by_id_None _ _) E acc Hin Hid).
  - intros H. apply get_account_by_id_None in H.
    unfold get_account_balance. rewrite H. reflexivity.
Qed.

(** The loop of [get_overall_balance], for any number type. *)
Lemma get_overall_balance_loop (self : DataStore) :
  get_overall_balance self
  = fold_left fadd (map (fun acc => get_account_balance self (a_id acc)) (accounts self)) fzero.
Proof.
  unfold get_overall_balance. generalize fzero.
  induction (accounts self) as [|acc accs IH]; intros start; simpl; [reflexivity|].
  apply IH.
Qed.

(** C5. For every store, whatever the number type (binary floats
    included): [get_overall_balance] is the total of [get_account_balance] of
    the id of each account of the ledger, the balances added one after the
    other from 0 in the order of the accounts.  In exact arithmetic that is
    their sum, however it is grouped. *)
Theorem get_overall_balance_spec (self : DataStore) :
  get_overall_balance self
  = fold_left fadd
      (map (fun acc => get_account_balance self (a_id acc)) (accounts self)) fzero /\
  (ExactArith ->
   get_overall_balance self
   = total_of (map (fun acc => get_account_balance self (a_id acc)) (accounts self))).
Proof.
  split; [apply get_overall_balance_loop|].
  intros arith. rewrite get_overall_balance_loop, (fold_left_total arith).
  apply (fadd_0_l arith).
Qed.


(** ** Month summary *)

Lemma same_month_in_month (now : DateTime.t) (t : Transaction) :
  same_month (t_date t) now = true <-> in_month now t.
Proof.
  unfold same_month, in_month.
  rewrite andb_true_iff, !Z.eqb_eq. reflexivity.
Qed.

Lemma get_month_summary_fold (self : DataStore) (now : DateTime.t) :
  get_month_summary self now
  = fold_left (month_step now) (transactions self) (fzero, fzero, ∅).
Proof. reflexivity. Qed.


(** Income and expense after the loop has run over [ts] from [i] and [e]. *)
Lemma income_expense_loop (now : DateTime.t) (ts : list Transaction)
    (i e : A) (m : gmap string A) :
  (fold_left (month_step now) ts (i, e, m)).1
  = (fold_left fadd
       (map t_amount (filter (fun t => in_month now t /\ fle fzero (t_amount t) = true) ts)) i,
     fold_left fadd
       (map t_amount (filter (fun t => in_month now t /\ fle fzero (t_amount t) = false) ts)) e).
Proof using Type.
  clear str_amount.
  revert i e m. induction ts as [|t ts IH]; intros i e m; [reflexivity|].
  rewrite !filter_cons. cbn [fold_left]. unfold month_step at 2.
  destruct (same_month (t_date t) now) eqn:Hm.
  - apply same_month_in_month in Hm.
    destruct (fle fzero (t_amount t)) eqn:Hs; rewrite IH; clear IH;
      repeat (destruct (decide _) as [[? ?]|?]); try congruence; try reflexivity;
      exfalso; intuition congruence.
  - rewrite IH; clear IH.
    repeat (destruct (decide _) as [[Hin ?]|?]); try reflexivity;
      apply same_month_in_month in Hin; congruence.
Qed.



Lemma month_step_retarget (now : DateTime.t) acc (account_id : Z) (currency : string)
    (t : Transaction) :
  month_step now acc (retarget account_id currency t) = month_step now acc t.
Proof. reflexivity. Qed.

Lemma get_account_balance_append (self : DataStore) (t : Transaction) (acc_id : Z) :
  get_account_balance (set_transactions (transactions self ++ [t]) self) acc_id
  = match get_account_by_id self acc_id with
    | None => fzero
    | Some acc =>
        if (t_account_id t =? acc_id)%Z && (t_currency t =? a_currency acc)%string
        then fadd (get_account_balance self acc_id) (t_amount t)
        else get_account_balance self acc_id
    end.
Proof.
  unfold get_account_balance, get_account_by_id. simpl accounts.
  destruct (find _ _) as [acc|]; [|reflexivity].
  simpl transactions. rewrite fold_left_app. reflexivity.
Qed.

(** C10. [get_month_summary] reads neither the accounts nor the
    [account_id] and [currency] of a transaction: replacing the accounts and
    moving every transaction to any account id and currency leaves the summary
    as it is, and a transaction of the month appended to the ledger adds its
    amount to income or expense and to its category in every case.
    [get_account_balance] differs: a transaction whose currency is not the
    account's leaves the balance of that account unchanged. *)
Theorem get_month_summary_no_account_filter (self : DataStore) (now : DateTime.t) :
  (forall (accs : list Account) (account_id : Transaction -> Z)
          (currency : Transaction -> string),
     get_month_summary
       (set_accounts accs
          (set_transactions
             (map (fun t => retarget (account_id t) (currency t) t) (transactions self))
             self)) now
     = get_month_summary self now) /\
  (forall t : Transaction,
     in_month now t ->
     get_month_summary (set_transactions (transactions self ++ [t]) self) now
     = let '(income, expense, by_category) := get_month_summary self now in
       (if fle fzero (t_amount t) then fadd income (t_amount t) else income,
        if fle fzero (t_amount t) then expense else fadd expense (t_amount t),
        <[t_category t :=
            fadd (default fzero (by_category !! t_category t)) (t_amount t)]>
          by_category)) /\
  (forall (t : Transaction) (acc : Account),
     get_account_by_id self (t_account_id t) = Some acc ->
     t_currency t <> a_currency acc ->
     get_account_balance (set_transactions (transactions self ++ [t]) self)
       (t_account_id t)
     = get_account_balance self (t_account_id t)).
Proof.
  split; [|split].
  - intros accs account_id currency. rewrite !get_month_summary_fold.
    simpl transactions. generalize (fzero, fzero, (∅ : gmap string A)).
    induction (transactions self) as [|t ts IH]; intros start; [reflexivity|].
    simpl. rewrite month_step_retarget. apply IH.
  - intros t Hin. rewrite !get_month_summary_fold. simpl transactions.
    rewrite fold_left_app. simpl.
    destruct (fold_left _ _ _) as [[income expense] by_category].
    unfold month_step. apply same_month_in_month in Hin. rewrite Hin.
    destruct (fle fzero (t_amount t)); reflexivity.
  - intros t acc Hacc Hcur. rewrite get_account_balance_append, Hacc.
    apply String.eqb_neq in Hcur. rewrite Hcur, andb_false_r. reflexivity.
Qed.


(** ** Updates with an unknown id *)

Lemma get_transaction_by_id_None (self : DataStore) (tx_id : Z) :
  get_transaction_by_id self tx_id = None <->
  (forall t, t ∈ transactions self -> t_id t <> tx_id).
Proof.
  unfold get_transaction_by_id. split.
  - intros H t Hin. apply list_elem_of_In in Hin.
    apply Z.eqb_neq. exact (find_none _ _ H t Hin).
  - intros H. destruct (find _ _) as [t|] eqn:E; [|reflexivity].
    apply find_some in E as [Hin Heq]. apply Z.eqb_eq in Heq.
    exfalso. apply (H t); [apply list_elem_of_In; exact Hin | exact Heq].
Qed.

(** C8. With an id that no account (no transaction) carries,
    [update_account] ([update_transaction]) returns the store it was given:
    accounts, transactions, counters, settings and the file are the same, after
    one call and after two.  The two operations have no exception to raise:
    they are total functions of the store. *)
Theorem update_unknown_id_noop (self : DataStore) (unknown : Z) :
  ((forall acc, acc ∈ accounts self -> a_id acc <> unknown) ->
   forall (name acc_type name' acc_type' : string) (bal bal' : A),
     update_account self unknown name acc_type bal = self /\
     update_account (update_account self unknown name acc_type bal)
       unknown name' acc_type' bal' = self) /\
  ((forall t, t ∈ transactions self -> t_id t <> unknown) ->
   forall (account_id account_id' : Z) (amount amount' : A)
          (category description category' description' : string),
     update_transaction self unknown account_id amount category description = self /\
     update_transaction
       (update_transaction self unknown account_id amount category description)
       unknown account_id' amount' category' description' = self).
Proof.
  split.
  - intros H. apply get_account_by_id_None in H. intros.
    unfold update_account. rewrite H. split; [reflexivity|]. rewrite H. reflexivity.
  - intros H. apply get_transaction_by_id_None in H. intros.
    unfold update_transaction. rewrite H. split; [reflexivity|]. rewrite H. reflexivity.
Qed.

(** ** Loading *)

(** [load], path by path. *)
Lemma load_unfold (self : DataStore) :
  load self
  = match disk self with
    | NoFile | Unparsable _ | Parsed JsonOther => self
    | Parsed (JsonObject raw) =>
        match comprehension Account_from_dict (default [] (raw_accounts raw)) with
        | Raise _ => self
        | Return accs =>
            let self1 := set_accounts accs self in
            match comprehension Transaction_from_dict (default [] (raw_transactions raw)) with
            | Raise _ => self1
            | Return txs =>
                let self2 := set_transactions txs self1 in
                let self3 :=
                  match accs with
                  | a :: rest => set_next_acc_id (max_of (a_id a) (map a_id rest) + 1) self2
                  | [] => self2
                  end in
                let self4 :=
                  match txs with
                  | t :: rest => set_next_tx_id (max_of (t_id t) (map t_id rest) + 1) self3
                  | [] => self3
                  end in
                set_settings (default ∅ (raw_settings raw) ∪ settings self4) self4
            end
        end
    end.
Proof.
  unfold load, try_except, load_body, bind, read, lift, assign.
  destruct (disk self) as [|text|[raw|]]; try reflexivity.
  simpl. destruct (comprehension Account_from_dict _) as [accs|e]; [|reflexivity].
  simpl. destruct (comprehension Transaction_from_dict _) as [txs|e]; [|reflexivity].
  simpl. destruct accs, txs; reflexivity.
Qed.

(** When [json.load] raises on the text of the file, the exception is caught
    in [load], which returns the store as it was; a ledger under construction
    is then empty, with both counters at 1.  The same holds when the file
    holds a JSON value that is not an object. *)
Lemma load_unparsable_starts_empty (text : string) (self : DataStore) :
  (load_body (set_disk (Unparsable text) self)).2 = Raise JSONDecodeError /\
  load (set_disk (Unparsable text) self) = set_disk (Unparsable text) self /\
  load (set_disk (Parsed JsonOther) self) = set_disk (Parsed JsonOther) self /\
  accounts (load (fresh (Unparsable text))) = [] /\
  transactions (load (fresh (Unparsable text))) = [] /\
  next_acc_id (load (fresh (Unparsable text))) = 1%Z /\
  next_tx_id (load (fresh (Unparsable text))) = 1%Z.
Proof.
  split; [reflexivity|]. split; [|split].
  - rewrite load_unfold. reflexivity.
  - rewrite load_unfold. reflexivity.
  - repeat split; reflexivity.
Qed.

(** The store [load] leaves when its body raises: the store it was given, or
    that store with the accounts of the file, when the exception came from a
    transaction record. *)
Lemma load_raise_state (dk : File) (e : exn) :
  (load_body (fresh dk)).2 = Raise e ->
  load (fresh dk) = fresh dk \/
  exists (raw : RawDoc) (accs : list Account),
    dk = Parsed (JsonObject raw) /\
    comprehension Account_from_dict (default [] (raw_accounts raw)) = Return accs /\
    comprehension Transaction_from_dict (default [] (raw_transactions raw)) = Raise e /\
    load (fresh dk) = set_accounts accs (fresh dk).
Proof.
  rewrite load_unfold. unfold load_body, bind, read, lift, assign. simpl disk.
  destruct dk as [|text|[raw|]]; try (intros _; left; reflexivity).
  simpl. destruct (comprehension Account_from_dict _) as [accs|e1] eqn:Ea;
    [|intros _; left; reflexivity].
  simpl. destruct (comprehension Transaction_from_dict _) as [txs|e2] eqn:Et.
  - simpl. destruct accs, txs; discriminate.
  - simpl. intros [= ->]. right. exists raw, accs. repeat split; assumption.
Qed.

(** ** Account ids *)






Lemma max_of_start (x : Z) (xs : list Z) : (x <= max_of x xs)%Z.
Proof.
  unfold max_of. revert x. induction xs as [|z zs IH]; intros x; simpl; [lia|].
  etransitivity; [|apply IH]. lia.
Qed.

Lemma max_of_ge (x : Z) (xs : list Z) (y : Z) :
  In y (x :: xs) -> (y <= max_of x xs)%Z.
Proof.
  revert x. induction xs as [|z zs IH]; intros x.
  - intros [<-|[]]. apply max_of_start.
  - intros [<-|[<-|H]].
    + apply max_of_start.
    + change (max_of x (z :: zs)) with (max_of (Z.max x z) zs).
      etransitivity; [|apply max_of_start]. lia.
    + change (max_of x (z :: zs)) with (max_of (Z.max x z) zs).
      apply IH. right. exact H.
Qed.


(** What a call of [add_account] does to the store. *)
Lemma add_account_effect (self : DataStore) (name acc_type currency : string) (bal : A) :
  let acc := mkAccount (next_acc_id self) name acc_type currency bal in
  add_account self name acc_type currency bal
  = (save (set_next_acc_id (next_acc_id self + 1)
             (set_accounts (accounts self ++ [acc]) self)), acc).
Proof. reflexivity. Qed.





(** A ledger whose load leaves no account still has the counter at 1. *)
Lemma load_fresh_no_accounts (dk : File) :
  accounts (load (fresh dk)) = [] -> next_acc_id (load (fresh dk)) = 1%Z.
Proof.
  rewrite load_unfold. simpl disk.
  destruct dk as [|text|[raw|]]; try reflexivity.
  destruct (comprehension Account_from_dict _) as [accs|e]; [|reflexivity].
  cbv zeta.
  destruct (comprehension Transaction_from_dict _) as [txs|e].
  - destruct accs as [|a rest]; [|destruct txs; discriminate].
    destruct txs; reflexivity.
  - simpl. intros ->. reflexivity.
Qed.






(** C4 on the code.  A file whose account records all load and one of whose
    transaction records lacks a required key stops [load] with [KeyError]
    after the accounts are assigned and before the counters are set.  The
    constructed ledger has the accounts of the file and the counter of
    account ids at 1; it seeds nothing, and [add_account] issues the id 1 and
    writes the accounts with it to the file.
    With the ids of the file all positive, as [save] writes them, that is not
    the largest id in use plus 1 and the ids are no longer increasing; with
    the id 1 in the file, it is issued twice. *)
Theorem add_account_reissues_id (raw : RawDoc) (a : Account) (rest : list Account)
    (key name acc_type currency : string) (bal : A) :
  comprehension Account_from_dict (default [] (raw_accounts raw)) = Return (a :: rest) ->
  comprehension Transaction_from_dict (default [] (raw_transactions raw))
  = Raise (KeyError key) ->
  let self := init (Parsed (JsonObject raw)) in
  let '(self', acc) := add_account self name acc_type currency bal in
  accounts self = a :: rest /\
  next_acc_id self = 1%Z /\
  acc = mkAccount 1 name acc_type currency bal /\
  accounts self' = (a :: rest) ++ [acc] /\
  disk self' = saved_file self' /\
  (Forall (fun i => (1 <= i)%Z) (map a_id (a :: rest)) ->
   (a_id acc < next_id_after (map a_id (a :: rest)))%Z /\
   ~ StronglySorted Z.lt (map a_id (accounts self'))) /\
  (In 1%Z (map a_id (a :: rest)) -> ~ NoDup (map a_id (accounts self'))).
Proof.
  intros Ha Ht.
  assert (init (Parsed (JsonObject raw))
          = set_accounts (a :: rest) (fresh (Parsed (JsonObject raw)))) as Hinit.
  { unfold init. rewrite load_unfold. simpl disk. cbv beta iota zeta.
    rewrite Ha, Ht. reflexivity. }
  cbv zeta. rewrite Hinit, add_account_effect. cbn [accounts next_acc_id set_accounts fresh
    save set_disk set_next_acc_id].
  split; [reflexivity|]. split; [reflexivity|]. split; [reflexivity|].
  split; [reflexivity|]. split; [reflexivity|]. split.
  - intros Hpos. apply Forall_cons in Hpos as [Hpa _]. split.
    + cbn [a_id map next_id_after]. pose proof (max_of_start (a_id a) (map a_id rest)). lia.
    + rewrite map_app. cbn [map a_id app]. intros Hs.
      apply StronglySorted_inv in Hs as [_ Hall].
      rewrite List.Forall_forall in Hall.
      assert (a_id a < 1)%Z; [|lia].
      apply Hall, in_or_app. right. left. reflexivity.
  - intros Hin. rewrite map_app. cbn [map a_id]. intros Hn.
    apply NoDup_app in Hn as (_ & Hdis & _).
    apply (Hdis 1%Z); [apply list_elem_of_In, Hin | left].
Qed.


(** ** The order of datetimes *)

Lemma lex_ltb_irrefl (k : list Z) : DateTime.lex_ltb k k = false.
Proof.
  induction k as [|x k IH]; simpl; [reflexivity|].
  rewrite IH, Z.ltb_irrefl, andb_false_r. reflexivity.
Qed.



Lemma lex_ltb_trichotomy (k1 k2 : list Z) :
  length k1 = length k2 ->
  DateTime.lex_ltb k1 k2 = false -> DateTime.lex_ltb k2 k1 = false -> k1 = k2.
Proof.
  revert k2. induction k1 as [|x k1 IH]; intros [|y k2]; simpl; try congruence.
  intros Hlen H12 H21. injection Hlen as Hlen.
  apply orb_false_iff in H12 as [Hxy H12]. apply orb_false_iff in H21 as [Hyx H21].
  apply Z.ltb_ge in Hxy, Hyx. assert (x = y) as -> by lia.
  rewrite Z.eqb_refl in H12, H21. simpl in H12, H21.
  f_equal. apply IH; assumption.
Qed.

Lemma DateTime_key_inj (d1 d2 : DateTime.t) : DateTime.key d1 = DateTime.key d2 -> d1 = d2.
Proof. destruct d1, d2. unfold DateTime.key. simpl. intros H. congruence. Qed.

Lemma DateTime_ltb_irrefl (d : DateTime.t) : DateTime.ltb d d = false.
Proof. apply lex_ltb_irrefl. Qed.



Lemma DateTime_ltb_trichotomy (d1 d2 : DateTime.t) :
  DateTime.ltb d1 d2 = false -> DateTime.ltb d2 d1 = false -> d1 = d2.
Proof.
  intros Hlt Hgt. apply DateTime_key_inj, lex_ltb_trichotomy; auto.
Qed.

(** ** The list of transactions, latest first *)







(** Two lists sorted latest first that list the transactions of every date in
    the same order are the same list: what a stable sort returns does not
    depend on how it sorts. *)
Lemma sorted_reverse_unique (l1 l2 : list Transaction) :
  StronglySorted not_before l1 -> StronglySorted not_before l2 ->
  (forall d, filter (fun v => t_date v = d) l1 = filter (fun v => t_date v = d) l2) ->
  l1 = l2.
Proof.
  intros H1. revert l2. induction H1 as [|t l1 Hs1 IH Ht]; intros l2 H2 Hf.
  - destruct l2 as [|u l2]; [reflexivity|].
    specialize (Hf (t_date u)). rewrite filter_cons in Hf.
    destruct (decide _); [discriminate | contradiction].
  - destruct H2 as [|u l2 Hs2 Hu].
    { specialize (Hf (t_date t)). rewrite filter_cons in Hf.
      destruct (decide _); [discriminate | contradiction]. }
    assert (t_date t = t_date u) as Hd.
    { apply DateTime_ltb_trichotomy.
      - pose proof (Hf (t_date u)) as Hfu. rewrite !filter_cons in Hfu.
        destruct (decide (t_date u = t_date u)); [|contradiction].
        destruct (decide (t_date t = t_date u)) as [->|Hne];
          [apply DateTime_ltb_irrefl|].
        assert (u ∈ l1) as Hin.
        { eapply list_elem_of_filter. rewrite Hfu. left. }
        apply list_elem_of_In in Hin.
        exact (proj1 (List.Forall_forall _ _) Ht u Hin).
      - pose proof (Hf (t_date t)) as Hft. rewrite !filter_cons in Hft.
        destruct (decide (t_date t = t_date t)); [|contradiction].
        destruct (decide (t_date u = t_date t)) as [->|Hne];
          [apply DateTime_ltb_irrefl|].
        assert (t ∈ l2) as Hin.
        { eapply list_elem_of_filter. rewrite <- Hft. left. }
        apply list_elem_of_In in Hin.
        exact (proj1 (List.Forall_forall _ _) Hu t Hin). }
    assert (t = u) as <-.
    { specialize (Hf (t_date t)). rewrite !filter_cons in Hf.
      destruct (decide (t_date t = t_date t)); [|contradiction].
      destruct (decide (t_date u = t_date t)); [|congruence].
      congruence. }
    f_equal. apply IH; [exact Hs2|].
    intros d. specialize (Hf d). rewrite !filter_cons in Hf.
    destruct (decide (t_date t = d)); congruence.
Qed.



(** ** The text of a datetime *)

Lemma string_app_nil_r (s : string) : s +:+ "" = s.
Proof.
  induction s as [|c s IH]; [reflexivity|].
  change (String c s +:+ "") with (String c (s +:+ "")). rewrite IH. reflexivity.
Qed.


Lemma digit_value_char (q : Z) :
  (0 <= q <= 9)%Z -> DateTime.digit_value (DateTime.digit_char q) = Some q.
Proof.
  intros H.
  assert (q = 0 \/ q = 1 \/ q = 2 \/ q = 3 \/ q = 4 \/ q = 5 \/ q = 6 \/ q = 7 \/
          q = 8 \/ q = 9)%Z as Hq by lia.
  repeat destruct Hq as [->|Hq]; try reflexivity. subst q. reflexivity.
Qed.

(** Reading back the digits [zpad] wrote. *)
Lemma take_digits_zpad (w : nat) (n acc : Z) (rest : string) :
  (0 <= n < 10 ^ Z.of_nat w)%Z ->
  DateTime.take_digits w acc (DateTime.zpad w n +:+ rest)
  = Some (10 ^ Z.of_nat w * acc + n, rest)%Z.
Proof.
  revert n acc. induction w as [|w IH]; intros n acc Hn.
  - simpl in *. do 2 f_equal. lia.
  - cbn [DateTime.zpad].
    change (String ?c ?s +:+ ?r) with (String c (s +:+ r)).
    cbn [DateTime.take_digits].
    assert (0 < 10 ^ Z.of_nat w)%Z as Hpos by (apply Z.pow_pos_nonneg; lia).
    assert (10 ^ Z.of_nat (S w) = 10 * 10 ^ Z.of_nat w)%Z as Hpow
      by (rewrite Nat2Z.inj_succ, Z.pow_succ_r; lia).
    rewrite digit_value_char.
    + rewrite IH by (apply Z.mod_pos_bound; lia).
      do 2 f_equal. rewrite Hpow.
      pose proof (Z.div_mod n (10 ^ Z.of_nat w)). lia.
    + split; [apply Z.div_pos; lia|].
      assert (n / 10 ^ Z.of_nat w < 10)%Z; [|lia].
      apply Z.div_lt_upper_bound; lia.
Qed.

Lemma validb_valid (d : DateTime.t) : DateTime.validb d = true <-> DateTime.valid d.
Proof using Type.
  clear fzero fadd fle str_amount.
  unfold DateTime.validb, DateTime.valid.
  rewrite !andb_true_iff, !Z.leb_le. tauto.
Qed.

Lemma days_in_month_le (y m : Z) : (DateTime.days_in_month y m <= 31)%Z.
Proof. unfold DateTime.days_in_month. repeat destruct (_ : bool); lia. Qed.

Lemma step_digits {X : Type} (w : nat) (n : Z) (rest : string)
    (k : Z * string -> option X) :
  (0 <= n < 10 ^ Z.of_nat w)%Z ->
  (DateTime.take_digits w 0 (DateTime.zpad w n +:+ rest) ≫= k) = k (n, rest).
Proof.
  intros H. rewrite take_digits_zpad by exact H. simpl. do 2 f_equal. lia.
Qed.

Lemma step_expect {X : Type} (c : ascii) (rest : string) (k : string -> option X) :
  (DateTime.expect c (String c rest) ≫= k) = k rest.
Proof. unfold DateTime.expect. rewrite Ascii.eqb_refl. reflexivity. Qed.

Ltac next_field :=
  rewrite step_digits by (simpl; lia);
  change (String ?c EmptyString +:+ ?r) with (String c r);
  rewrite step_expect.

(** [fromisoformat] reads back what [isoformat] wrote, to the microsecond. *)
Lemma fromisoformat_isoformat (d : DateTime.t) :
  DateTime.valid d -> DateTime.fromisoformat (DateTime.isoformat d) = Some d.
Proof using Type.
  clear fzero fadd fle str_amount.
  intros Hv. pose proof (proj2 (validb_valid d) Hv) as Hb.
  destruct Hv as (Hy & Hm & Hd & Hh & Hmi & Hs & Hus).
  pose proof (days_in_month_le (DateTime.year d) (DateTime.month d)).
  unfold DateTime.fromisoformat, DateTime.isoformat.
  do 5 next_field.
  rewrite step_digits by (simpl; lia).
  destruct (Z.eqb_spec (DateTime.microsecond d) 0) as [E|E].
  - simpl. destruct d; simpl in *. subst. rewrite Hb. reflexivity.
  - change (String ?c EmptyString +:+ ?r) with (String c r). cbv beta iota.
    rewrite Ascii.eqb_refl.
    rewrite <- (string_app_nil_r (DateTime.zpad 6 _)).
    rewrite step_digits by (simpl; lia).
    destruct d; simpl in *. rewrite Hb. reflexivity.
Qed.

(** ** Save, then load *)

Lemma Account_from_to_dict (a : Account) :
  Account_from_dict (Account_to_dict a) = Return a.
Proof. destruct a. reflexivity. Qed.

Lemma Transaction_from_to_dict (t : Transaction) :
  DateTime.valid (t_date t) ->
  Transaction_from_dict (Transaction_to_dict t) = Return t.
Proof.
  intros Hv. unfold Transaction_from_dict, Transaction_to_dict.
  cbn [td_id td_date td_account_id td_category td_description td_amount td_currency].
  rewrite (fromisoformat_isoformat _ Hv). destruct t. reflexivity.
Qed.

Lemma comprehension_map {X Y : Type} (f : X -> result Y) (g : Y -> X) (l : list Y) :
  (forall y, y ∈ l -> f (g y) = Return y) ->
  comprehension f (map g l) = Return l.
Proof.
  induction l as [|y l IH]; intros H; simpl; [reflexivity|].
  rewrite (H y) by left. rewrite IH; [reflexivity|].
  intros z Hz. apply H. right. exact Hz.
Qed.



(** ** The report *)




(** The dictionary [acc_by_id] holds, for an id, the last account with it. *)
Lemma acc_by_id_fold (accs : list Account) (m : gmap Z Account) (i : Z) :
  fold_left (fun m a => <[a_id a := a]> m) accs m !! i
  = match last (List.filter (fun a => (a_id a =? i)%Z) accs) with
    | Some acc => Some acc
    | None => m !! i
    end.
Proof.
  revert m. induction accs as [|a accs IH]; intros m; [reflexivity|].
  cbn [fold_left List.filter]. rewrite IH.
  destruct (Z.eqb_spec (a_id a) i) as [Hi|Hi].
  - destruct (List.filter _ accs) as [|b l] eqn:E.
    + simpl. rewrite <- Hi. apply lookup_insert_eq.
    + change (last (a :: b :: l)) with (last (b :: l)).
      destruct (last (b :: l)) eqn:El; [reflexivity|].
      apply last_None in El. discriminate.
  - destruct (last _); [reflexivity|]. apply lookup_insert_ne, Hi.
Qed.

Lemma acc_by_id_lookup (self : DataStore) (i : Z) :
  acc_by_id self !! i = last (List.filter (fun a => (a_id a =? i)%Z) (accounts self)).
Proof.
  unfold acc_by_id. rewrite acc_by_id_fold, lookup_empty.
  destruct (last _); reflexivity.
Qed.


(** *** Lines *)









(** *** Numerals *)









(** *** The rows *)







(** ** Sequences of calls: ids *)

Lemma assign_first_map {X Y : Type} (g : X -> Y) (p : X -> bool) (f : X -> X) (l : list X) :
  (forall x, g (f x) = g x) -> map g (assign_first p f l) = map g l.
Proof.
  intros H. induction l as [|x l IH]; [reflexivity|].
  simpl. destruct (p x); simpl; [rewrite H | rewrite IH]; reflexivity.
Qed.

Lemma StronglySorted_lt_NoDup (ids : list Z) : StronglySorted Z.lt ids -> NoDup ids.
Proof.
  induction 1 as [|i ids _ IH Hi]; constructor; [|exact IH].
  intros Hin. apply list_elem_of_In in Hin.
  pose proof (proj1 (List.Forall_forall _ _) Hi i Hin). lia.
Qed.

Lemma ids_below_snoc (next : Z) (ids : list Z) :
  ids_below next ids -> ids_below (next + 1) (ids ++ [next]).
Proof.
  intros [Hs Hb]. split.
  - induction Hs as [|i ids Hs IH Hi]; simpl.
    + constructor; constructor.
    + apply Forall_cons in Hb as [Hlt Hb]. constructor; [apply IH, Hb|].
      apply Forall_app. split; [exact Hi|]. constructor; [exact Hlt|constructor].
  - apply Forall_app. split.
    + eapply List.Forall_impl; [|exact Hb]. intros i Hi. simpl in Hi. lia.
    + constructor; [lia|constructor].
Qed.

Lemma ids_below_filter {X : Type} (g : X -> Z) (p : X -> bool) (next : Z) (l : list X) :
  ids_below next (map g l) -> ids_below next (map g (List.filter p l)).
Proof.
  intros [Hs Hb]. split.
  - induction l as [|x l IH]; [constructor|].
    simpl in Hs, Hb. apply StronglySorted_inv in Hs as [Hs Hx].
    apply Forall_cons in Hb as [_ Hb]. simpl.
    destruct (p x); [|apply IH; assumption].
    simpl. constructor; [apply IH; assumption|].
    apply List.Forall_forall. intros i Hi. apply in_map_iff in Hi as (y & <- & Hy).
    apply filter_In in Hy as [Hy _].
    apply (proj1 (List.Forall_forall _ _) Hx). apply in_map. exact Hy.
  - apply List.Forall_forall. intros i Hi. apply in_map_iff in Hi as (y & <- & Hy).
    apply filter_In in Hy as [Hy _].
    apply (proj1 (List.Forall_forall _ _) Hb). apply in_map. exact Hy.
Qed.

Lemma call_keeps_ids (self : DataStore) (c : Call) :
  ids_wf self ->
  ids_wf (call self c) /\
  (next_acc_id self <= next_acc_id (call self c))%Z /\
  (next_tx_id self <= next_tx_id (call self c))%Z.
Proof.
  intros [Ha Ht]. destruct c as [name acc_type currency bal | acc_id name acc_type bal
    | now account_id amount category description date
    | tx_id account_id amount category description | tx_id]; simpl.
  - unfold ids_wf. simpl. rewrite map_app. simpl.
    split; [split; [apply ids_below_snoc, Ha | exact Ht]|]. lia.
  - unfold update_account. destruct (get_account_by_id self acc_id).
    + unfold ids_wf. simpl. rewrite assign_first_map by reflexivity.
      split; [split; assumption|]. lia.
    + split; [split; assumption|]. lia.
  - unfold ids_wf. simpl. rewrite map_app. simpl.
    split; [split; [exact Ha | apply ids_below_snoc, Ht]|]. lia.
  - unfold update_transaction. destruct (get_transaction_by_id self tx_id).
    + unfold ids_wf. simpl. rewrite assign_first_map by reflexivity.
      split; [split; assumption|]. lia.
    + split; [split; assumption|]. lia.
  - unfold ids_wf. simpl.
    split; [split; [exact Ha | apply ids_below_filter, Ht]|]. lia.
Qed.

(** X1. On a store whose ids are in order and below the counters, every
    sequence of calls keeps them so: the ids of the accounts and of the
    transactions stay strictly increasing in stored order, hence without
    repetition, and below the counters, which never decrease.  An id that was
    issued is not issued again, also after [delete_transaction]. *)
Theorem run_calls_keeps_ids (self : DataStore) (cs : list Call) :
  ids_wf self ->
  ids_wf (run_calls self cs) /\
  NoDup (map a_id (accounts (run_calls self cs))) /\
  NoDup (map t_id (transactions (run_calls self cs))) /\
  (next_acc_id self <= next_acc_id (run_calls self cs))%Z /\
  (next_tx_id self <= next_tx_id (run_calls self cs))%Z.
Proof.
  revert self. induction cs as [|c cs IH]; intros self Hwf.
  - simpl. split; [exact Hwf|].
    split; [apply StronglySorted_lt_NoDup, Hwf|].
    split; [apply StronglySorted_lt_NoDup, Hwf|]. lia.
  - destruct (call_keeps_ids self c Hwf) as (Hwf' & Hna & Hnt).
    destruct (IH (call self c) Hwf') as (H1 & H2 & H3 & H4 & H5).
    change (run_calls self (c :: cs)) with (run_calls (call self c) cs).
    split; [exact H1|]. split; [exact H2|]. split; [exact H3|]. lia.
Qed.

Lemma load_fresh_no_transactions (dk : File) :
  transactions (load (fresh dk)) = [] -> next_tx_id (load (fresh dk)) = 1%Z.
Proof.
  rewrite load_unfold. simpl disk.
  destruct dk as [|text|[raw|]]; try reflexivity.
  destruct (comprehension Account_from_dict _) as [accs|e]; [|reflexivity].
  cbv zeta.
  destruct (comprehension Transaction_from_dict _) as [txs|e]; [|reflexivity].
  destruct txs as [|t rest]; [destruct accs; reflexivity|].
  destruct accs; discriminate.
Qed.

(** A ledger constructed on a disk that gave it no account and no transaction
    has its ids in order. *)
Lemma init_ids_wf (dk : File) :
  accounts (load (fresh dk)) = [] -> transactions (load (fresh dk)) = [] ->
  ids_wf (init dk).
Proof.
  intros Ha Ht. pose proof (load_fresh_no_accounts dk Ha) as Hna.
  pose proof (load_fresh_no_transactions dk Ht) as Hn.
  unfold init. rewrite Ha. unfold ids_wf, ids_below. simpl.
  rewrite Ha, Ht, Hna, Hn. simpl.
  repeat split; repeat constructor.
Qed.


(** ** Sequences of calls: the file *)

Lemma save_idem (self : DataStore) : save (save self) = save self.
Proof. reflexivity. Qed.



Lemma init_synced (dk : File) : accounts (load (fresh dk)) = [] -> synced (init dk).
Proof. intros H. unfold synced, init. rewrite H. reflexivity. Qed.

(** The store [load] builds from a file that [save] wrote. *)
Lemma load_saved (self : DataStore) :
  (forall t, t ∈ transactions self -> DateTime.valid (t_date t)) ->
  load (fresh (disk (save self)))
  = {| accounts := accounts self;
       transactions := transactions self;
       settings := settings self ∪ {[ "user_name" := "Компания" ]};
       next_acc_id := next_id_after (map a_id (accounts self));
       next_tx_id := next_id_after (map t_id (transactions self));
       disk := disk (save self) |}.
Proof.
  intros Hv. rewrite load_unfold. simpl disk. cbv beta iota.
  cbn [raw_accounts raw_transactions raw_settings from_option]. unfold id.
  rewrite (comprehension_map Account_from_dict Account_to_dict)
    by (intros; apply Account_from_to_dict).
  rewrite (comprehension_map Transaction_from_dict Transaction_to_dict)
    by (intros t Ht; apply Transaction_from_to_dict, Hv, Ht).
  destruct (accounts self), (transactions self); reflexivity.
Qed.

(** X2. Closing and reopening the application.  When the file holds the
    state of the store, the dates are valid, there is an account and the
    settings name the user, a [DataStore] constructed on the file is the store
    that was left, except for the two counters: each is set to the largest id
    in its list plus 1 (1 for an empty list). *)
Theorem init_on_saved (self : DataStore) :
  synced self ->
  accounts self <> [] ->
  (forall t, t ∈ transactions self -> DateTime.valid (t_date t)) ->
  is_Some (settings self !! "user_name") ->
  init (disk self)
  = set_next_tx_id (next_id_after (map t_id (transactions self)))
      (set_next_acc_id (next_id_after (map a_id (accounts self))) self).
Proof.
  intros Hs Hne Hv [u Hu]. unfold synced in Hs.
  assert (disk self = disk (save self)) as Hd by (rewrite Hs; reflexivity).
  rewrite Hd at 1. unfold init. rewrite (load_saved self Hv). cbn [accounts].
  destruct self as [accs txs st na nt dk]. simpl in *.
  destruct accs as [|a l]; [contradiction|]. subst dk.
  unfold set_next_tx_id, set_next_acc_id. simpl. f_equal.
  apply map_eq. intros k. rewrite lookup_union.
  destruct (decide (k = "user_name")) as [->|Hk].
  - rewrite Hu, lookup_singleton_eq. reflexivity.
  - rewrite lookup_singleton_ne by congruence.
    destruct (st !! k); reflexivity.
Qed.

(** The settings always name the user: the constructor sets the key and
    nothing removes it. *)
Lemma load_keeps_user_name (self : DataStore) :
  is_Some (settings self !! "user_name") -> is_Some (settings (load self) !! "user_name").
Proof.
  intros Hu. rewrite load_unfold.
  destruct (disk self) as [|text|[raw|]]; try exact Hu.
  destruct (comprehension Account_from_dict _) as [accs|e]; [|exact Hu].
  cbv zeta.
  destruct (comprehension Transaction_from_dict _) as [txs|e]; [|exact Hu].
  assert (forall s : DataStore, is_Some (settings s !! "user_name") ->
            is_Some ((default ∅ (raw_settings raw) ∪ settings s) !! "user_name")) as Hun.
  { intros s [u Hs]. rewrite lookup_union, Hs.
    destruct (default ∅ (raw_settings raw) !! "user_name"); eexists; reflexivity. }
  destruct accs, txs; simpl; apply Hun; exact Hu.
Qed.





(** ** Sequences of calls: what stays *)

Lemma call_accounts_grow (self : DataStore) (c : Call) :
  exists newer : list (Z * string),
    map account_key (accounts (call self c)) = map account_key (accounts self) ++ newer.
Proof.
  destruct c as [name acc_type currency bal | acc_id name acc_type bal
    | now account_id amount category description date
    | tx_id account_id amount category description | tx_id]; simpl.
  - eexists. rewrite map_app. reflexivity.
  - exists []. rewrite app_nil_r. unfold update_account.
    destruct (get_account_by_id self acc_id); [|reflexivity].
    simpl. apply assign_first_map. reflexivity.
  - exists []. rewrite app_nil_r. reflexivity.
  - exists []. rewrite app_nil_r. unfold update_transaction.
    destruct (get_transaction_by_id self tx_id); reflexivity.
  - exists []. rewrite app_nil_r. reflexivity.
Qed.

(** X3. No sequence of calls removes or reorders an account, or changes the
    id or the currency of one: the accounts of the store, read as pairs of id
    and currency, are an initial segment of the accounts after the calls. *)
Theorem run_calls_accounts_grow (self : DataStore) (cs : list Call) :
  exists newer : list (Z * string),
    map account_key (accounts (run_calls self cs))
    = map account_key (accounts self) ++ newer.
Proof.
  revert self. induction cs as [|c cs IH]; intros self.
  - exists []. rewrite app_nil_r. reflexivity.
  - change (run_calls self (c :: cs)) with (run_calls (call self c) cs).
    destruct (IH (call self c)) as [n2 H2].
    destruct (call_accounts_grow self c) as [n1 H1].
    exists (n1 ++ n2). rewrite H2, H1, app_assoc. reflexivity.
Qed.

Lemma assign_first_elem {X : Type} (p : X -> bool) (f : X -> X) (l : list X) (y : X) :
  In y (assign_first p f l) -> In y l \/ exists x, In x l /\ y = f x.
Proof.
  induction l as [|x l IH]; simpl; [intros []|].
  destruct (p x); simpl.
  - intros [<-|H]; [right; exists x; auto | left; right; exact H].
  - intros [<-|H]; [left; left; reflexivity|].
    destruct (IH H) as [H1|(z & Hz & ->)]; [left; right; exact H1|].
    right. exists z. auto.
Qed.

Lemma call_transaction_origin (self : DataStore) (c : Call) (t : Transaction) :
  In t (transactions (call self c)) ->
  t_currency t = BASE_CURRENCY \/
  exists t0, In t0 (transactions self) /\ same_origin t0 t.
Proof.
  assert (forall t, In t (transactions self) ->
            t_currency t = BASE_CURRENCY \/
            exists t0, In t0 (transactions self) /\ same_origin t0 t) as Hold.
  { intros u Hu. right. exists u. repeat split; [exact Hu|..]; reflexivity. }
  destruct c as [name acc_type currency bal | acc_id name acc_type bal
    | now account_id amount category description date
    | tx_id account_id amount category description | tx_id]; simpl.
  - apply Hold.
  - unfold update_account. destruct (get_account_by_id self acc_id); apply Hold.
  - intros Hin. apply in_app_or in Hin as [Hin|[<-|[]]]; [apply Hold, Hin|].
    left. reflexivity.
  - unfold update_transaction. destruct (get_transaction_by_id self tx_id); [|apply Hold].
    simpl. intros Hin. apply assign_first_elem in Hin as [Hin|(x & Hx & ->)];
      [apply Hold, Hin|].
    right. exists x. repeat split; [exact Hx|..]; reflexivity.
  - intros Hin. apply filter_In in Hin as [Hin _]. apply Hold, Hin.
Qed.

(** X4. After any sequence of calls, a transaction of the store either
    carries the base currency or is a transaction the store had before the
    calls, with the id, the date and the currency it had then:
    [add_transaction] stamps the base currency whatever the account, and no
    call changes the id, the date or the currency of a transaction. *)
Theorem run_calls_transaction_origin (self : DataStore) (cs : list Call) (t : Transaction) :
  In t (transactions (run_calls self cs)) ->
  t_currency t = BASE_CURRENCY \/
  exists t0, In t0 (transactions self) /\ same_origin t0 t.
Proof.
  revert self. induction cs as [|c cs IH]; intros self Hin.
  - right. exists t. repeat split; [exact Hin|..]; reflexivity.
  - change (run_calls self (c :: cs)) with (run_calls (call self c) cs) in Hin.
    destruct (IH _ Hin) as [Hb|(t1 & H1 & Ho1)]; [left; exact Hb|].
    destruct (call_transaction_origin self c t1 H1) as [Hb|(t0 & H0 & Ho0)].
    + left. destruct Ho1 as (_ & _ & <-). exact Hb.
    + right. exists t0. split; [exact H0|].
      destruct Ho0 as (? & ? & ?), Ho1 as (? & ? & ?). repeat split; congruence.
Qed.

Lemma run_calls_base_currency (self : DataStore) (cs : list Call) :
  Forall (fun t => t_currency t = BASE_CURRENCY) (transactions self) ->
  Forall (fun t => t_currency t = BASE_CURRENCY) (transactions (run_calls self cs)).
Proof.
  revert self. induction cs as [|c cs IH]; intros self Hbase; [exact Hbase|].
  change (run_calls self (c :: cs)) with (run_calls (call self c) cs).
  apply IH. apply List.Forall_forall. intros t Ht.
  destruct (call_transaction_origin self c t Ht) as [Hb|(t0 & H0 & _ & _ & <-)];
    [exact Hb|].
  exact (proj1 (List.Forall_forall _ _) Hbase t0 H0).
Qed.

(** X5. In a ledger all of whose transactions carry the base currency, as
    every ledger started without a file has them, no sequence of calls moves
    the balance of an account kept in another currency: it is the initial
    balance of the account, whatever was recorded on its id. *)
Theorem foreign_account_balance (self : DataStore) (cs : list Call) (acc_id : Z)
    (acc : Account) :
  Forall (fun t => t_currency t = BASE_CURRENCY) (transactions self) ->
  get_account_by_id (run_calls self cs) acc_id = Some acc ->
  a_currency acc <> BASE_CURRENCY ->
  get_account_balance (run_calls self cs) acc_id = a_initial_balance acc.
Proof.
  intros Hbase Hacc Hcur.
  pose proof (proj1 (List.Forall_forall _ _) (run_calls_base_currency self cs Hbase))
    as Hall.
  unfold get_account_balance. rewrite Hacc.
  generalize (a_initial_balance acc).
  induction (transactions (run_calls self cs)) as [|t ts IH]; intros start;
    [reflexivity|].
  simpl. assert ((t_currency t =? a_currency acc)%string = false) as ->.
  { apply String.eqb_neq. rewrite (Hall t) by (left; reflexivity). congruence. }
  rewrite andb_false_r. apply IH. intros u Hu. apply Hall. right. exact Hu.
Qed.


(** ** Deleting a transaction *)










Lemma accumulate_loop_filter {X : Type} (p q : X -> bool) (f : X -> A) (xs : list X)
    (start : A) :
  (forall x, In x xs -> q x = false -> p x = false) ->
  fold_left (fun total x => if p x then fadd total (f x) else total)
    (List.filter q xs) start
  = fold_left (fun total x => if p x then fadd total (f x) else total) xs start.
Proof.
  revert start. induction xs as [|x xs IH]; intros start H; [reflexivity|].
  simpl. destruct (q x) eqn:Eq; simpl.
  - apply IH. intros y Hy. apply H. right. exact Hy.
  - rewrite (H x (or_introl eq_refl) Eq). apply IH.
    intros y Hy. apply H. right. exact Hy.
Qed.

(** X7. Deleting a transaction leaves the balance of every account for
    which it did not count as it was: the accounts with another id, and every
    account when the transaction is in another currency than the account with
    its account id.  For the number type as it is, floats included. *)
Theorem delete_transaction_other_balances (self : DataStore) (tx_id acc_id : Z) :
  (forall t acc, t ∈ transactions self -> t_id t = tx_id ->
     get_account_by_id self acc_id = Some acc ->
     ~ counts_for acc_id (a_currency acc) t) ->
  get_account_balance (delete_transaction self tx_id) acc_id
  = get_account_balance self acc_id.
Proof.
  intros H. unfold get_account_balance, get_account_by_id. simpl.
  fold (get_account_by_id self acc_id).
  destruct (get_account_by_id self acc_id) as [acc|] eqn:Ea; [|reflexivity].
  apply accumulate_loop_filter. intros t Ht Hq.
  apply negb_false_iff, Z.eqb_eq in Hq.
  specialize (H t acc (proj2 (list_elem_of_In _ _) Ht) Hq eq_refl).
  destruct (Z.eqb_spec (t_account_id t) acc_id) as [Hi|Hi]; [|reflexivity].
  destruct (String.eqb_spec (t_currency t) (a_currency acc)) as [Hc|Hc]; [|reflexivity].
  exfalso. apply H. split; assumption.
Qed.


(** ** Updates that find their record *)











(** ** Adding records *)


Lemma find_app_None {X : Type} (p : X -> bool) (l : list X) (x : X) :
  find p l = None -> find p (l ++ [x]) = if p x then Some x else None.
Proof.
  induction l as [|y l IH]; simpl; [reflexivity|].
  destruct (p y); [discriminate | exact IH].
Qed.

Lemma find_app_Some {X : Type} (p : X -> bool) (l l' : list X) (y : X) :
  find p l = Some y -> find p (l ++ l') = Some y.
Proof.
  induction l as [|z l IH]; simpl; [discriminate|].
  destruct (p z); [intros H; exact H | exact IH].
Qed.

Lemma ids_below_not_found {X : Type} (g : X -> Z) (next : Z) (l : list X) :
  ids_below next (map g l) -> find (fun x => (g x =? next)%Z) l = None.
Proof.
  intros [_ Hb]. destruct (find _ l) as [x|] eqn:E; [|reflexivity].
  apply find_some in E as [Hin Hx]. apply Z.eqb_eq in Hx.
  pose proof (proj1 (List.Forall_forall _ _) Hb (g x) (in_map g l x Hin)) as Hlt.
  simpl in Hlt. lia.
Qed.

(** X11. What was added is found.  On a store whose ids are in order and
    below the counters, the account [add_account] returns is the one
    [get_account_by_id] finds under its id, and the transaction
    [add_transaction] returns is the one [get_transaction_by_id] finds under
    its id; every id that was found before is found as before. *)
Theorem added_is_found (self : DataStore) :
  ids_wf self ->
  (forall (name acc_type currency : string) (bal : A),
     let '(self', acc) := add_account self name acc_type currency bal in
     get_account_by_id self' (a_id acc) = Some acc /\
     forall other found, get_account_by_id self other = Some found ->
                         get_account_by_id self' other = Some found) /\
  (forall (now : DateTime.t) (account_id : Z) (amount : A)
          (category description : string) (date : option DateTime.t),
     let '(self', tx) :=
       add_transaction self now account_id amount category description date in
     get_transaction_by_id self' (t_id tx) = Some tx /\
     forall other found, get_transaction_by_id self other = Some found ->
                         get_transaction_by_id self' other = Some found).
Proof.
  intros [Ha Ht]. split.
  - intros name acc_type currency bal. simpl. split.
    + unfold get_account_by_id. simpl.
      rewrite find_app_None by apply (ids_below_not_found a_id _ _ Ha).
      simpl. rewrite Z.eqb_refl. reflexivity.
    + intros other found Hf. unfold get_account_by_id in *. simpl.
      apply find_app_Some, Hf.
  - intros now account_id amount category description date. simpl. split.
    + unfold get_transaction_by_id. simpl.
      rewrite find_app_None by apply (ids_below_not_found t_id _ _ Ht).
      simpl. rewrite Z.eqb_refl. reflexivity.
    + intros other found Hf. unfold get_transaction_by_id in *. simpl.
      apply find_app_Some, Hf.
Qed.

Lemma fold_left_add_ext {X : Type} (g h : X -> A) (l : list X) (start : A) :
  (forall x, In x l -> g x = h x) ->
  fold_left (fun total x => fadd total (g x)) l start
  = fold_left (fun total x => fadd total (h x)) l start.
Proof.
  revert start. induction l as [|x l IH]; intros start H; [reflexivity|].
  simpl. rewrite (H x) by (left; reflexivity).
  apply IH. intros y Hy. apply H. right. exact Hy.
Qed.

Lemma get_account_balance_more_accounts (self : DataStore) (more : list Account)
    (acc_id : Z) (found : Account) :
  get_account_by_id self acc_id = Some found ->
  get_account_balance (set_accounts (accounts self ++ more) self) acc_id
  = get_account_balance self acc_id.
Proof.
  intros Hf. unfold get_account_balance, get_account_by_id in *. simpl.
  rewrite (find_app_Some _ _ more _ Hf), Hf. reflexivity.
Qed.

(** X12. [add_account] leaves the balance of every account that was found
    before as it was, and on a store whose ids are in order the overall
    balance grows by the balance of the new account, which is the initial
    balance given plus the transactions already recorded on the new id in the
    currency of the account.  For the number type as it is. *)
Theorem add_account_balances (self : DataStore) (name acc_type currency : string) (bal : A) :
  ids_wf self ->
  let '(self', acc) := add_account self name acc_type currency bal in
  (forall other found, get_account_by_id self other = Some found ->
     get_account_balance self' other = get_account_balance self other) /\
  get_account_balance self' (a_id acc)
  = fold_left fadd
      (map t_amount (filter (counts_for (a_id acc) currency) (transactions self)))
      bal /\
  get_overall_balance self'
  = fadd (get_overall_balance self) (get_account_balance self' (a_id acc)).
Proof.
  intros [Ha _]. rewrite add_account_effect. cbv zeta.
  set (acc := mkAccount (next_acc_id self) name acc_type currency bal).
  set (self1 := set_accounts (accounts self ++ [acc]) self).
  assert (forall i, get_account_balance
            (save (set_next_acc_id (next_acc_id self + 1) self1)) i
          = get_account_balance self1 i) as Hsame by reflexivity.
  assert (forall other found, get_account_by_id self other = Some found ->
            get_account_balance self1 other = get_account_balance self other) as Hold.
  { intros other found Hf. apply (get_account_balance_more_accounts self [acc] other found Hf). }
  split; [intros other found Hf; rewrite Hsame; exact (Hold other found Hf)|].
  split.
  - rewrite Hsame. unfold get_account_balance, get_account_by_id, self1. simpl.
    rewrite find_app_None by apply (ids_below_not_found a_id _ _ Ha).
    simpl. rewrite Z.eqb_refl. rewrite accumulate_loop, counts_for_test. reflexivity.
  - rewrite Hsame. unfold get_overall_balance. simpl accounts.
    rewrite fold_left_app. simpl. f_equal.
    assert (forall a, In a (accounts self) ->
                get_account_balance
                  (save (set_next_acc_id (next_acc_id self + 1) self1)) (a_id a)
                = get_account_balance self (a_id a)) as Heach.
    { intros a Hin. rewrite Hsame.
      destruct (get_account_by_id self (a_id a)) as [found|] eqn:E;
        [exact (Hold _ _ E)|].
      exfalso. apply (proj1 (get_account_by_id_None _ _) E a);
        [apply list_elem_of_In, Hin | reflexivity]. }
    apply fold_left_add_ext. exact Heach.
Qed.


(** ** The month, net *)

Lemma total_of_split {X : Type} (f : X -> A) (P : X -> Prop) `{!forall x, Decision (P x)}
    (q : X -> bool) (l : list X) :
  ExactArith -> (forall x y, fadd x y = fadd y x) ->
  fadd (total_of (map f (filter (fun x => P x /\ q x = true) l)))
       (total_of (map f (filter (fun x => P x /\ q x = false) l)))
  = total_of (map f (filter P l)).
Proof.
  intros arith comm. induction l as [|x l IH]; simpl.
  - apply (fadd_0_l arith).
  - rewrite !filter_cons.
    destruct (decide (P x)) as [HP|HP].
    + destruct (q x) eqn:Eq.
      * destruct (decide (P x /\ true = true)) as [_|Hn]; [|exfalso; auto].
        destruct (decide (P x /\ true = false)) as [[_ Hf]|_]; [discriminate|].
        simpl. rewrite <- IH. symmetry. apply (fadd_assoc arith).
      * destruct (decide (P x /\ false = true)) as [[_ Hf]|_]; [discriminate|].
        destruct (decide (P x /\ false = false)) as [_|Hn]; [|exfalso; auto].
        simpl. rewrite <- IH.
        rewrite (fadd_assoc arith), (fadd_assoc arith). f_equal. apply comm.
    + destruct (decide (P x /\ q x = true)) as [[? _]|_]; [contradiction|].
      destruct (decide (P x /\ q x = false)) as [[? _]|_]; [contradiction|].
      exact IH.
Qed.

(** X13. In exact, commutative arithmetic the income and the expense of
    [get_month_summary] add up to the sum of the amounts of all transactions
    of the month: the net result the analytics page shows is the movement of
    the month. *)
Theorem get_month_summary_net (arith : ExactArith)
    (comm : forall x y, fadd x y = fadd y x) (self : DataStore) (now : DateTime.t) :
  let '(income, expense, _) := get_month_summary self now in
  fadd income expense
  = total_of (map t_amount (filter (in_month now) (transactions self))).
Proof.
  rewrite get_month_summary_fold.
  pose proof (income_expense_loop now (transactions self) fzero fzero ∅) as Hie.
  destruct (fold_left _ _ _) as [[income expense] by_category].
  simpl in Hie. injection Hie as -> ->.
  rewrite !(fold_left_total arith), !(fadd_0_l arith).
  apply (total_of_split t_amount (in_month now) (fun t => fle fzero (t_amount t)));
    assumption.
Qed.

(** ** Construction *)

Lemma init_of_untouched (dk : File) : load (fresh dk) = fresh dk -> init dk = init NoFile.
Proof. intros H. unfold init. rewrite H. reflexivity. Qed.

(** X15. A file that cannot be read is replaced.  When [json.load] raises
    on the file, when the file holds a JSON value that is not an object or
    when one of its account records raises, the constructor ends in the state
    it reaches without a file: the seeded account alone, no transaction of
    the file, and the file rewritten with that state. *)
Theorem init_replaces_unreadable :
  (forall text, init (Unparsable text) = init NoFile) /\
  init (Parsed JsonOther) = init NoFile /\
  (forall raw e,
     comprehension Account_from_dict (default [] (raw_accounts raw)) = Raise e ->
     init (Parsed (JsonObject raw)) = init NoFile) /\
  init NoFile
  = {| accounts := [mkAccount 1 "Расчетный счет" "Карта" BASE_CURRENCY fzero];
       transactions := [];
       settings := {[ "user_name" := "Компания" ]};
       next_acc_id := 2;
       next_tx_id := 1;
       disk := Parsed (JsonObject
                 {| raw_accounts :=
                      Some [Account_to_dict
                              (mkAccount 1 "Расчетный счет" "Карта" BASE_CURRENCY fzero)];
                    raw_transactions := Some [];
                    raw_settings := Some {[ "user_name" := "Компания" ]} |}) |}.
Proof.
  split; [intros text; apply init_of_untouched; rewrite load_unfold; reflexivity|].
  split; [apply init_of_untouched; rewrite load_unfold; reflexivity|].
  split; [|reflexivity].
  intros raw e He. apply init_of_untouched. rewrite load_unfold. simpl disk.
  cbv beta iota. rewrite He. reflexivity.
Qed.

Lemma init_accounts_nonempty (dk : File) : accounts (init dk) <> [].
Proof.
  unfold init. destruct (accounts (load (fresh dk))) eqn:E.
  - simpl. rewrite E. discriminate.
  - rewrite E. discriminate.
Qed.

(** X16. A constructed ledger has an account, whatever the file holds, and
    keeps having one through every sequence of calls. *)
Theorem ledger_has_account (dk : File) (cs : list Call) :
  accounts (run_calls (init dk) cs) <> [].
Proof.
  pose proof (init_accounts_nonempty dk) as Hne. revert Hne.
  generalize (init dk). induction cs as [|c cs IH]; intros self Hne; [exact Hne|].
  change (run_calls self (c :: cs)) with (run_calls (call self c) cs).
  apply IH. destruct (call_accounts_grow self c) as [newer H].
  intros Hnil. rewrite Hnil in H.
  destruct (accounts self); [contradiction | discriminate].
Qed.




(** ** Ledgers read from a file *)

Lemma max_of_above (x : Z) (xs : list Z) :
  Forall (fun i => (i < max_of x xs + 1)%Z) (x :: xs).
Proof.
  apply List.Forall_forall. intros i Hi.
  pose proof (max_of_ge x xs i Hi). simpl. lia.
Qed.

Lemma load_counters_above (dk : File) :
  (load_body (fresh dk)).2 = Return tt -> counters_above (load (fresh dk)).
Proof.
  unfold counters_above. rewrite load_unfold.
  unfold load_body, bind, read, lift, assign. simpl disk.
  destruct dk as [|text|[raw|]]; try discriminate.
  simpl. destruct (comprehension Account_from_dict _) as [accs|e]; [|discriminate].
  simpl. destruct (comprehension Transaction_from_dict _) as [txs|e]; [|discriminate].
  intros _. destruct accs as [|a accs], txs as [|t txs]; simpl;
    split; first [apply max_of_above | constructor].
Qed.

Lemma Forall_below_snoc (next : Z) (ids : list Z) :
  Forall (fun i => (i < next)%Z) ids ->
  Forall (fun i => (i < next + 1)%Z) (ids ++ [next]).
Proof.
  intros H. apply Forall_app. split.
  - eapply List.Forall_impl; [|exact H]. intros i Hi. simpl in Hi. lia.
  - constructor; [lia|constructor].
Qed.

Lemma NoDup_below_snoc (next : Z) (ids : list Z) :
  Forall (fun i => (i < next)%Z) ids -> NoDup ids -> NoDup (ids ++ [next]).
Proof.
  intros Hb Hn. apply NoDup_app. split; [exact Hn|]. split.
  - intros i Hi Hin. apply list_elem_of_In in Hi.
    pose proof (proj1 (List.Forall_forall _ _) Hb i Hi) as Hlt. simpl in Hlt.
    apply list_elem_of_singleton in Hin. lia.
  - apply NoDup_singleton.
Qed.

Lemma NoDup_map_filter {X : Type} (g : X -> Z) (p : X -> bool) (l : list X) :
  NoDup (map g l) -> NoDup (map g (List.filter p l)).
Proof.
  induction l as [|x l IH]; simpl; [auto|].
  intros H. apply NoDup_cons in H as [Hx Hn].
  destruct (p x); [|apply IH, Hn].
  simpl. apply NoDup_cons. split; [|apply IH, Hn].
  intros Hin. apply Hx. apply list_elem_of_In in Hin. apply list_elem_of_In.
  apply in_map_iff in Hin as (y & Hy & Hyin). apply filter_In in Hyin as [Hyin _].
  apply in_map_iff. exists y. auto.
Qed.

Lemma Forall_map_filter {X : Type} (g : X -> Z) (p : X -> bool) (P : Z -> Prop)
    (l : list X) :
  Forall P (map g l) -> Forall P (map g (List.filter p l)).
Proof.
  intros H. apply List.Forall_forall. intros i Hi.
  apply in_map_iff in Hi as (y & <- & Hy). apply filter_In in Hy as [Hy _].
  apply (proj1 (List.Forall_forall _ _) H). apply in_map. exact Hy.
Qed.

Lemma call_counters_above (self : DataStore) (c : Call) :
  counters_above self ->
  counters_above (call self c) /\
  (NoDup (map a_id (accounts self)) -> NoDup (map a_id (accounts (call self c)))) /\
  (NoDup (map t_id (transactions self)) -> NoDup (map t_id (transactions (call self c)))).
Proof.
  intros [Ha Ht]. unfold counters_above.
  destruct c as [name acc_type currency bal | acc_id name acc_type bal
    | now account_id amount category description date
    | tx_id account_id amount category description | tx_id]; simpl.
  - rewrite map_app. simpl. split; [split; [apply Forall_below_snoc, Ha | exact Ht]|].
    split; [apply NoDup_below_snoc, Ha | auto].
  - unfold update_account. destruct (get_account_by_id self acc_id); [|auto].
    simpl. rewrite assign_first_map by reflexivity. auto.
  - rewrite map_app. simpl. split; [split; [exact Ha | apply Forall_below_snoc, Ht]|].
    split; [auto | apply NoDup_below_snoc, Ht].
  - unfold update_transaction. destruct (get_transaction_by_id self tx_id); [|auto].
    simpl. rewrite assign_first_map by reflexivity. auto.
  - split; [split; [exact Ha | apply Forall_map_filter, Ht]|].
    split; [auto | apply NoDup_map_filter].
Qed.

Lemma init_counters_above (dk : File) :
  (load_body (fresh dk)).2 = Return tt ->
  counters_above (init dk) /\
  (NoDup (map a_id (accounts (load (fresh dk)))) -> NoDup (map a_id (accounts (init dk)))) /\
  transactions (init dk) = transactions (load (fresh dk)).
Proof.
  intros Hok. pose proof (load_counters_above dk Hok) as [Ha Ht].
  unfold init. destruct (accounts (load (fresh dk))) as [|a l] eqn:E.
  - pose proof (load_fresh_no_accounts dk E) as Hn.
    unfold counters_above. simpl. rewrite E, Hn. simpl.
    split; [split; [repeat constructor | exact Ht]|].
    split; [intros _; apply NoDup_singleton | reflexivity].
  - unfold counters_above. rewrite E.
    split; [split; assumption|]. split; [auto | reflexivity].
Qed.

(** X20. On a ledger constructed on a file whose load completed, whatever
    the order of the ids in the file, every id of the ledger stays below its
    counter through every sequence of calls: [add_account] and
    [add_transaction] never issue an id that is in use, and when the ids of
    the file are pairwise distinct so are the ids of the ledger at every
    point. *)
Theorem loaded_ids_fresh (dk : File) (cs : list Call) :
  (load_body (fresh dk)).2 = Return tt ->
  let self := run_calls (init dk) cs in
  counters_above self /\
  (NoDup (map a_id (accounts (load (fresh dk)))) -> NoDup (map a_id (accounts self))) /\
  (NoDup (map t_id (transactions (load (fresh dk)))) ->
   NoDup (map t_id (transactions self))).
Proof.
  intros Hok. destruct (init_counters_above dk Hok) as (Habove & Hacc & Htx).
  rewrite <- Htx. cbv zeta. revert Habove Hacc. generalize (init dk). clear.
  induction cs as [|c cs IH]; intros self Habove Hacc.
  - simpl. split; [exact Habove|]. split; [exact Hacc | auto].
  - change (run_calls self (c :: cs)) with (run_calls (call self c) cs).
    destruct (call_counters_above self c Habove) as (Habove' & Hacc' & Htx').
    destruct (IH (call self c) Habove') as (H1 & H2 & H3); [auto|].
    split; [exact H1|]. split; auto.
Qed.


(** ** The overall balance, transaction by transaction *)

Section Conservation.
Hypothesis arith : ExactArith.
Hypothesis comm : forall x y, fadd x y = fadd y x.

Lemma total_of_pointwise {X : Type} (g h : X -> A) (l : list X) :
  total_of (map (fun x => fadd (g x) (h x)) l)
  = fadd (total_of (map g l)) (total_of (map h l)).
Proof.
  induction l as [|x l IH]; simpl.
  - symmetry. apply (fadd_0_l arith).
  - rewrite IH.
    rewrite <- (fadd_assoc arith (g x) (h x)).
    rewrite <- (fadd_assoc arith (g x) (total_of (map g l))).
    f_equal.
    rewrite (fadd_assoc arith (h x)), (fadd_assoc arith (total_of (map g l))).
    f_equal. apply comm.
Qed.

Lemma total_of_zeros {X : Type} (l : list X) : total_of (map (fun _ => fzero) l) = fzero.
Proof.
  induction l as [|x l IH]; simpl; [reflexivity|].
  rewrite IH. apply (fadd_0_l arith).
Qed.

Lemma total_of_ext {X : Type} (g h : X -> A) (l : list X) :
  (forall x, In x l -> g x = h x) -> total_of (map g l) = total_of (map h l).
Proof.
  induction l as [|x l IH]; intros H; simpl; [reflexivity|].
  rewrite (H x) by (left; reflexivity). f_equal.
  apply IH. intros y Hy. apply H. right. exact Hy.
Qed.

(** Among accounts with distinct ids, a test that fixes the id picks at most
    one. *)
Lemma total_of_one_hit (c : Account -> bool) (i : Z) (x : A) (accs : list Account) :
  NoDup (map a_id accs) ->
  (forall a, c a = true -> a_id a = i) ->
  total_of (map (fun a => if c a then x else fzero) accs)
  = if existsb c accs then x else fzero.
Proof.
  intros Hn Hc. induction accs as [|a accs IH]; simpl; [reflexivity|].
  simpl in Hn. apply NoDup_cons in Hn as [Ha Hn].
  destruct (c a) eqn:Eca; simpl.
  - rewrite (total_of_ext _ (fun _ => fzero)).
    + rewrite total_of_zeros. apply (fadd_0_r arith).
    + intros b Hb. destruct (c b) eqn:Ecb; [|reflexivity].
      exfalso. apply Ha. rewrite (Hc a Eca), <- (Hc b Ecb).
      apply list_elem_of_In, in_map, Hb.
  - rewrite (IH Hn). apply (fadd_0_l arith).
Qed.

Lemma booked_sum (accs : list Account) (ts : list Transaction) :
  NoDup (map a_id accs) ->
  total_of (map (fun a =>
     total_of (map t_amount
       (List.filter
          (fun t => (t_account_id t =? a_id a)%Z && (t_currency t =? a_currency a)%string)
          ts))) accs)
  = total_of (map t_amount
      (List.filter
         (fun t => existsb
            (fun a => (t_account_id t =? a_id a)%Z && (t_currency t =? a_currency a)%string)
            accs) ts)).
Proof.
  intros Hn. induction ts as [|t ts IH].
  - simpl. apply total_of_zeros.
  - cbn [List.filter].
    rewrite (total_of_ext _
      (fun a => fadd
         (if (t_account_id t =? a_id a)%Z && (t_currency t =? a_currency a)%string
          then t_amount t else fzero)
         (total_of (map t_amount
            (List.filter
               (fun t => (t_account_id t =? a_id a)%Z && (t_currency t =? a_currency a)%string)
               ts))))).
    + rewrite total_of_pointwise, IH.
      rewrite (total_of_one_hit _ (t_account_id t) _ accs Hn).
      * destruct (existsb _ accs); simpl; [reflexivity | apply (fadd_0_l arith)].
      * intros a Ha. apply andb_true_iff in Ha as [Ha _].
        apply Z.eqb_eq in Ha. congruence.
    + intros a _. destruct (_ && _); simpl; [reflexivity|].
      symmetry. apply (fadd_0_l arith).
Qed.

Lemma find_own_id (accs : list Account) (a : Account) :
  NoDup (map a_id accs) -> In a accs ->
  find (fun b => (a_id b =? a_id a)%Z) accs = Some a.
Proof.
  induction accs as [|b accs IH]; simpl; [intros _ []|].
  intros Hn Hin. apply NoDup_cons in Hn as [Hb Hn].
  destruct (Z.eqb_spec (a_id b) (a_id a)) as [E|E].
  - destruct Hin as [->|Hin]; [reflexivity|].
    exfalso. apply Hb. rewrite E. apply list_elem_of_In, in_map, Hin.
  - destruct Hin as [->|Hin]; [contradiction|]. apply IH; assumption.
Qed.

(** X21. Where the accounts have pairwise distinct ids, in exact
    commutative arithmetic, the overall balance is the sum of the initial
    balances of the accounts plus the sum of the amounts of the transactions
    recorded on an account of the ledger in the currency of that account; a
    transaction on an id without account, or in another currency than its
    account, does not enter it. *)
Theorem get_overall_balance_booked (self : DataStore) :
  NoDup (map a_id (accounts self)) ->
  get_overall_balance self
  = fadd (total_of (map a_initial_balance (accounts self)))
         (total_of (map t_amount (List.filter (booked self) (transactions self)))).
Proof.
  intros Hn. rewrite get_overall_balance_loop, (fold_left_total arith), (fadd_0_l arith).
  unfold booked. rewrite <- (booked_sum _ _ Hn), <- total_of_pointwise.
  apply total_of_ext. intros a Ha.
  unfold get_account_balance, get_account_by_id.
  rewrite (find_own_id _ a Hn Ha).
  rewrite accumulate_loop, (fold_left_total arith). reflexivity.
Qed.

End Conservation.


(** ** The two lookups of an account *)

Lemma last_filter_find (accs : list Account) (i : Z) :
  NoDup (map a_id accs) ->
  last (List.filter (fun a => (a_id a =? i)%Z) accs)
  = find (fun a => (a_id a =? i)%Z) accs.
Proof.
  induction accs as [|a accs IH]; [reflexivity|].
  simpl. intros Hn. apply NoDup_cons in Hn as [Ha Hn].
  destruct (Z.eqb_spec (a_id a) i) as [E|E]; [|apply IH, Hn].
  assert (List.filter (fun b => (a_id b =? i)%Z) accs = []) as ->; [|reflexivity].
  clear IH Hn. induction accs as [|b accs IH]; [reflexivity|].
  simpl. destruct (Z.eqb_spec (a_id b) i) as [Eb|Eb].
  - exfalso. apply Ha. rewrite E, <- Eb. simpl. apply elem_of_cons. left. reflexivity.
  - apply IH. intros Hin. apply Ha. simpl. apply elem_of_cons. right. exact Hin.
Qed.

(** X22. Where the accounts have pairwise distinct ids, the dictionary
    [export_csv] builds to name the account of a transaction holds for every
    id the account [get_account_by_id] finds: the report and the queries show
    the same account.  (With a repeated id the dictionary holds the last
    account with it and [get_account_by_id] finds the first.) *)
Theorem acc_by_id_agrees (self : DataStore) (acc_id : Z) :
  NoDup (map a_id (accounts self)) ->
  acc_by_id self !! acc_id = get_account_by_id self acc_id.
Proof.
  intros Hn. rewrite acc_by_id_lookup. apply last_filter_find, Hn.
Qed.

(** ** A session, then a restart *)






End Ledger.

(** * The ledger over the integers

    The number type instantiated with [Z] (amounts in the smallest unit of the
    currency), and a ledger built with the operations of the store: three
    accounts, one of them in another currency, and five transactions, one of
    them on an id that no account carries. *)

Lemma Z_exact : ExactArith 0%Z Z.add Z.leb.
Proof.
  constructor; intros; lia.
Qed.

Definition march_7 : DateTime.t := DateTime.mk 2024 3 7 9 5 0 0.
Definition march_9 : DateTime.t := DateTime.mk 2024 3 9 18 30 15 250000.
Definition march_20 : DateTime.t := DateTime.mk 2024 3 20 0 0 0 0.
Definition april_1 : DateTime.t := DateTime.mk 2024 4 1 12 0 0 0.

Definition ledger : @DataStore Z := Eval vm_compute in
  let s := init 0%Z NoFile in
  let s := update_account s 1 "Main" "Card" 1000%Z in
  let s := (add_account s "Cash" "Cash" "RUB" 50%Z).1 in
  let s := (add_account s "Dollars" "Deposit" "USD" 10%Z).1 in
  let s := (add_transaction s march_7 1 500%Z "Services" "web; design" None).1 in
  let s := (add_transaction s march_7 1 (-200)%Z "Rent" "office" (Some march_9)).1 in
  let s := (add_transaction s march_7 2 70%Z "Sales" "" (Some april_1)).1 in
  let s := (add_transaction s march_7 3 (-30)%Z "Rent" "garage" (Some march_7)).1 in
  (add_transaction s march_7 9 0%Z "Other" "" (Some march_20)).1.

(** The ledger as the calls leave it: ids, account ids, amounts and
    currencies of its transactions, in the order of the list. *)
Example ledger_contents :
  map (fun a => (a_id a, a_currency a, a_initial_balance a)) (accounts ledger)
  = [(1, "RUB", 1000); (2, "RUB", 50); (3, "USD", 10)]%Z /\
  map (fun t => (t_id t, t_account_id t, t_amount t, t_currency t)) (transactions ledger)
  = [(1, 1, 500, "RUB"); (2, 1, -200, "RUB"); (3, 2, 70, "RUB"); (4, 3, -30, "RUB");
     (5, 9, 0, "RUB")]%Z /\
  next_acc_id ledger = 4%Z /\ next_tx_id ledger = 6%Z /\ save ledger = ledger.
Proof. repeat split; reflexivity. Qed.

Definition main_account : @Account Z := mkAccount 1 "Main" "Card" "RUB" 1000%Z.
Definition dollar_account : @Account Z := mkAccount 3 "Dollars" "Deposit" "USD" 10%Z.

Lemma ledger_dates_valid (t : @Transaction Z) :
  t ∈ transactions ledger -> DateTime.valid (t_date t).
Proof.
  intros Ht. apply validb_valid.
  repeat (apply elem_of_cons in Ht as [->|Ht]; [reflexivity|]).
  apply elem_of_nil in Ht. contradiction.
Qed.



Lemma ledger_no_42 :
  (forall acc : @Account Z, acc ∈ accounts ledger -> a_id acc <> 42%Z) /\
  (forall t : @Transaction Z, t ∈ transactions ledger -> t_id t <> 42%Z).
Proof.
  split; intros x Hin;
    repeat (apply elem_of_cons in Hin as [->|Hin]; [discriminate|]);
    apply elem_of_nil in Hin; contradiction.
Qed.

(** C8 on [ledger] with the id 42, twice in succession. *)
Lemma update_unknown_id_noop_witness :
  update_account (update_account ledger 42 "a" "b" 1%Z) 42 "c" "d" 2%Z = ledger /\
  update_transaction (update_transaction ledger 42 1 5%Z "e" "f") 42 2 6%Z "g" "h" = ledger.
Proof.
  destruct (update_unknown_id_noop ledger 42%Z) as [Hacc Htx].
  split.
  - exact (proj2 (Hacc (proj1 ledger_no_42) "a" "b" "c" "d" 1%Z 2%Z)).
  - exact (proj2 (Htx (proj2 ledger_no_42) 1%Z 2%Z 5%Z 6%Z "e" "f" "g" "h")).
Defined.


(** A transaction in roubles on the dollar account. *)
Definition mismatched : @Transaction Z :=
  mkTransaction 6 march_9 3 "Rent" "a;b;c" (-40)%Z "RUB".



(** The year 999 is written in three digits. *)
Example strftime_year_999 :
  DateTime.strftime_Ymd_HM (DateTime.mk 999 12 31 23 59 0 0) = "999-12-31 23:59".
Proof. vm_compute. reflexivity. Qed.

(** A description with a line break: the row of the transaction is two lines
    of the report. *)
Example export_csv_line_break :
  let t := mkTransaction 7 march_7 1 "Other" (String "a" (String newline "b")) 5%Z "RUB" in
  length (transactions (set_transactions [t] ledger)) = 1%nat /\
  length (split_lines (export_csv pretty (set_transactions [t] ledger))) = 3%nat.
Proof. vm_compute. split; reflexivity. Qed.


(** C10 on [ledger]: the rouble transaction [mismatched] on the dollar
    account enters the summary of March and leaves the balance of account 3
    as it is. *)
Lemma get_month_summary_no_account_filter_witness :
  (let '(income, expense, by_category) :=
     get_month_summary 0%Z Z.add Z.leb
       (set_transactions (transactions ledger ++ [mismatched]) ledger) march_20 in
   income = 500%Z /\ expense = (-270)%Z /\ by_category !! "Rent" = Some (-270)%Z) /\
  get_account_balance 0%Z Z.add
    (set_transactions (transactions ledger ++ [mismatched]) ledger) 3
  = get_account_balance 0%Z Z.add ledger 3.
Proof.
  destruct (get_month_summary_no_account_filter 0%Z Z.add Z.leb ledger march_20)
    as (_ & Hin & Hbal).
  split.
  - rewrite (Hin mismatched) by (split; reflexivity).
    vm_compute. repeat split; reflexivity.
  - apply (Hbal mismatched dollar_account); [reflexivity | discriminate].
Defined.

(** A file whose accounts load and whose transactions do not: the date of
    the only transaction record is not a date. *)
Definition half_readable : @File Z :=
  Parsed (JsonObject
    {| raw_accounts := Some [mkAccountDict (Some 1%Z) (Some "Main") None None None];
       raw_transactions :=
         Some [mkTransactionDict (Some 1%Z) (Some "yesterday") (Some 1%Z) None None
                 (Some 5%Z) None];
       raw_settings := None |}).

(** C7 on the code.  The file [half_readable] is structurally invalid, and
    the body of [load] ends with [ValueError]: parsing the file fails.  [load]
    catches the exception, but the accounts of the file are assigned by then,
    so the ledger does not start empty.  The counter of account ids is still
    at 1: the constructor seeds nothing, and the next account is given the id
    of the loaded one. *)
Example load_half_readable_not_empty :
  (load_body 0%Z (fresh half_readable)).2 = Raise ValueError /\
  accounts (load 0%Z (fresh half_readable)) = [mkAccount 1 "Main" "Счет" "RUB" 0%Z] /\
  transactions (load 0%Z (fresh half_readable)) = [] /\
  next_acc_id (load 0%Z (fresh half_readable)) = 1%Z /\
  init 0%Z half_readable = load 0%Z (fresh half_readable) /\
  map a_id (accounts (add_account (init 0%Z half_readable) "Cash" "Cash" "RUB" 0%Z).1)
  = [1; 1]%Z.
Proof. repeat split; reflexivity. Qed.

(** A file with two accounts and a transaction record without the key
    [date]. *)
Definition undated : @RawDoc Z :=
  {| raw_accounts :=
       Some [mkAccountDict (Some 1%Z) (Some "Main") None None None;
             mkAccountDict (Some 2%Z) (Some "Cash") None None None];
     raw_transactions :=
       Some [mkTransactionDict (Some 1%Z) None (Some 1%Z) None None (Some 5%Z) None];
     raw_settings := None |}.

(** C4 on the ledger constructed on [undated]: the next account is given the
    id 1, where the largest id in use plus 1 is 3; the ids are 1, 2, 1. *)
Lemma add_account_reissues_id_witness :
  let '(self', acc) :=
    add_account (init 0%Z (Parsed (JsonObject undated))) "Till" "Cash" "RUB" 0%Z in
  a_id acc = 1%Z /\
  next_id_after (map a_id (accounts (init 0%Z (Parsed (JsonObject undated))))) = 3%Z /\
  map a_id (accounts self') = [1; 2; 1]%Z /\
  ~ StronglySorted Z.lt (map a_id (accounts self')) /\
  ~ NoDup (map a_id (accounts self')).
Proof.
  pose proof (add_account_reissues_id 0%Z undated
                (mkAccount 1 "Main" "Счет" "RUB" 0%Z)
                [mkAccount 2 "Cash" "Счет" "RUB" 0%Z]
                "date" "Till" "Cash" "RUB" 0%Z eq_refl eq_refl) as H.
  cbv zeta in H.
  destruct (add_account (init 0%Z (Parsed (JsonObject undated))) "Till" "Cash" "RUB" 0%Z)
    as [self' acc].
  destruct H as (_ & _ & Hacc & Haccs & _ & Hpos & Hdup).
  split; [rewrite Hacc; reflexivity|]. split; [reflexivity|].
  split; [rewrite Haccs, Hacc; reflexivity|]. split.
  - apply Hpos. simpl. repeat (apply List.Forall_cons; [lia|]). apply List.Forall_nil.
  - apply Hdup. left. reflexivity.
Defined.

(** * Sessions on the ledger over the integers *)

(** A session on [ledger]: a fourth account, a sixth transaction, the
    deletion of transaction 2, updates of transaction 1 and of account 3, and
    the deletion of an id that no transaction carries. *)
Definition session : list (@Call Z) :=
  [CallAddAccount "Reserve" "Deposit" "RUB" 300%Z;
   CallAddTransaction march_20 2 25%Z "Sales" "stall" None;
   CallDeleteTransaction 2;
   CallUpdateTransaction 1 2 (-5)%Z "Rent" "moved";
   CallUpdateAccount 3 "Euro" "Deposit" 77%Z;
   CallDeleteTransaction 99].

Definition after_session : @DataStore Z := Eval vm_compute in run_calls ledger session.

Lemma after_session_eq : run_calls ledger session = after_session.
Proof. vm_compute. reflexivity. Qed.

Lemma ledger_ids_wf : ids_wf ledger.
Proof.
  unfold ids_wf, ids_below. simpl.
  repeat split; repeat constructor; lia.
Qed.

Lemma ledger_base_currency :
  Forall (fun t : @Transaction Z => t_currency t = BASE_CURRENCY) (transactions ledger).
Proof. repeat constructor. Qed.

(** X1 on [ledger] and [session]: the ids after the session, and the
    counters. *)
Lemma run_calls_keeps_ids_witness :
  NoDup (map a_id (accounts (run_calls ledger session))) /\
  NoDup (map t_id (transactions (run_calls ledger session))) /\
  (next_tx_id ledger <= next_tx_id (run_calls ledger session))%Z.
Proof.
  destruct (run_calls_keeps_ids ledger session ledger_ids_wf) as (_ & Ha & Ht & _ & Hn).
  split; [exact Ha|]. split; [exact Ht | exact Hn].
Defined.

Lemma ledger_user_name : is_Some (settings ledger !! "user_name").
Proof. eexists. reflexivity. Qed.

(** X2 on [ledger]: reopened, it is the ledger that was left. *)
Lemma init_on_saved_witness : init 0%Z (disk ledger) = ledger.
Proof.
  rewrite (init_on_saved 0%Z ledger); [reflexivity|reflexivity|discriminate|..].
  - exact ledger_dates_valid.
  - exact ledger_user_name.
Defined.

(** The transaction the session adds, and transaction 1 as [ledger] has it. *)
Definition stall_sale : @Transaction Z :=
  mkTransaction 6 march_20 2 "Sales" "stall" 25%Z "RUB".
Definition first_sale : @Transaction Z :=
  mkTransaction 1 march_7 1 "Services" "web; design" 500%Z "RUB".

(** X4 on [session]: the transaction it added carries the base currency or
    comes from [ledger]. *)
Lemma run_calls_transaction_origin_witness :
  t_currency stall_sale = BASE_CURRENCY \/
  exists t0, In t0 (transactions ledger) /\ same_origin t0 stall_sale.
Proof.
  apply (run_calls_transaction_origin ledger session stall_sale).
  rewrite after_session_eq. simpl. tauto.
Defined.

(** X5 on [session]: the rouble transaction 4 on the dollar account 3 never
    counts; after the update the balance of the account is its new initial
    balance. *)
Lemma foreign_account_balance_witness :
  get_account_balance 0%Z Z.add (run_calls ledger session) 3 = 77%Z.
Proof.
  apply (foreign_account_balance 0%Z Z.add ledger session 3
           (mkAccount 3 "Euro" "Deposit" "USD" 77%Z) ledger_base_currency).
  - rewrite after_session_eq. reflexivity.
  - discriminate.
Defined.


(** X7 on [ledger]: transaction 4, in roubles on the dollar account 3, did
    not count for that account. *)
Lemma delete_transaction_other_balances_witness :
  get_account_balance 0%Z Z.add (delete_transaction ledger 4) 3
  = get_account_balance 0%Z Z.add ledger 3.
Proof.
  apply (delete_transaction_other_balances 0%Z Z.add ledger 4 3).
  intros t acc Ht Hid Hacc [_ Hc]. injection Hacc as <-.
  repeat (apply elem_of_cons in Ht as [->|Ht]; [discriminate|]).
  apply elem_of_nil in Ht. contradiction.
Defined.




(** X11 on [ledger]: the sixth transaction is found under the id 6, and
    transaction 1 is found as before. *)
Lemma added_is_found_witness :
  get_transaction_by_id
    (add_transaction ledger march_20 2 25%Z "Sales" "stall" None).1 6
  = Some stall_sale /\
  get_transaction_by_id
    (add_transaction ledger march_20 2 25%Z "Sales" "stall" None).1 1
  = Some first_sale.
Proof.
  pose proof (proj2 (added_is_found ledger ledger_ids_wf)
                march_20 2 25%Z "Sales" "stall" None) as H.
  destruct (add_transaction ledger march_20 2 25%Z "Sales" "stall" None) as [self' tx] eqn:E.
  injection E as <- <-. destruct H as [Hnew Hold].
  split; [exact Hnew | exact (Hold 1%Z first_sale eq_refl)].
Defined.

(** X12 on [ledger]: a fourth account opened at 7. *)
Lemma add_account_balances_witness :
  get_overall_balance 0%Z Z.add (add_account ledger "Reserve" "Deposit" "RUB" 7%Z).1
  = (get_overall_balance 0%Z Z.add ledger + 7)%Z.
Proof.
  pose proof (add_account_balances 0%Z Z.add ledger "Reserve" "Deposit" "RUB" 7%Z
                ledger_ids_wf) as H.
  destruct (add_account ledger "Reserve" "Deposit" "RUB" 7%Z) as [self' acc] eqn:E.
  injection E as <- <-. destruct H as (_ & Hnew & Hall).
  simpl fst. rewrite Hall, Hnew. reflexivity.
Defined.

(** X13 on [ledger] in March 2024. *)
Lemma get_month_summary_net_witness :
  let '(income, expense, _) := get_month_summary 0%Z Z.add Z.leb ledger march_20 in
  (income + expense)%Z = total_of 0%Z Z.add [500; -200; -30; 0]%Z.
Proof. exact (get_month_summary_net 0%Z Z.add Z.leb Z_exact Z.add_comm ledger march_20). Defined.

(** A file whose only account record has no name, and one good transaction. *)
Definition nameless : @RawDoc Z :=
  {| raw_accounts := Some [mkAccountDict (Some 1%Z) None None None None];
     raw_transactions :=
       Some [mkTransactionDict (Some 1%Z) (Some "2024-03-07T09:05:00") (Some 1%Z) None None
               (Some 5%Z) None];
     raw_settings := None |}.

(** X15 on [nameless]: the transaction of the file is gone. *)
Lemma init_replaces_unreadable_witness :
  init 0%Z (Parsed (JsonObject nameless)) = init 0%Z NoFile /\
  transactions (init 0%Z (Parsed (JsonObject nameless))) = [].
Proof.
  destruct (init_replaces_unreadable 0%Z) as (_ & _ & H & _).
  pose proof (H nameless (KeyError "name") eq_refl) as Hinit.
  split; [exact Hinit|]. rewrite Hinit. reflexivity.
Defined.

(** A file written by another program: the ids of its accounts are not in
    order, a transaction has no account id, and the settings name the user. *)
Definition foreign_file : @File Z :=
  Parsed (JsonObject
    {| raw_accounts :=
         Some [mkAccountDict (Some 5%Z) (Some "Till") None None (Some 10%Z);
               mkAccountDict (Some 3%Z) (Some "Bank") (Some "Карта") (Some "RUB") None];
       raw_transactions :=
         Some [mkTransactionDict (Some 8%Z) (Some "2024-03-07T09:05:00") None None None
                 (Some 5%Z) None];
       raw_settings := Some {[ "user_name" := "Romashka" ]} |}).



(** X20 on [foreign_file]: the ids 5 and 3 of the file, then 6 and 7. *)
Lemma loaded_ids_fresh_witness :
  NoDup (map a_id (accounts (run_calls (init 0%Z foreign_file) session))) /\
  map a_id (accounts (run_calls (init 0%Z foreign_file) session)) = [5; 3; 6]%Z /\
  map t_id (transactions (run_calls (init 0%Z foreign_file) session)) = [8; 9]%Z.
Proof.
  destruct (loaded_ids_fresh 0%Z foreign_file session eq_refl) as (_ & Ha & _).
  split; [|split; reflexivity].
  apply Ha. repeat constructor; intros H;
    repeat (apply elem_of_cons in H as [H|H]; [discriminate|]);
    apply elem_of_nil in H; contradiction.
Defined.


Lemma ledger_ids_NoDup : NoDup (map a_id (accounts ledger)).
Proof. exact (StronglySorted_lt_NoDup _ (proj1 (proj1 ledger_ids_wf))). Qed.

(** X21 on [ledger]: the initial balances, and the transactions 1, 2 and 3;
    transaction 4 is in roubles on the dollar account and transaction 5 on an
    id without account. *)
Lemma get_overall_balance_booked_witness :
  get_overall_balance 0%Z Z.add ledger
  = (total_of 0%Z Z.add [1000; 50; 10] + total_of 0%Z Z.add [500; -200; 70])%Z.
Proof.
  exact (get_overall_balance_booked 0%Z Z.add Z.leb Z_exact Z.add_comm ledger
           ledger_ids_NoDup).
Defined.

(** X22 on [ledger]: the account the report names for id 3. *)
Lemma acc_by_id_agrees_witness :
  acc_by_id ledger !! 3%Z = Some dollar_account.
Proof.
  rewrite (acc_by_id_agrees ledger 3 ledger_ids_NoDup). reflexivity.
Defined.



(** * The ledger over binary floats

    The number type of the source: a Python [float] is an IEEE 754 binary64
    number, as the primitive floats are.  [0.0] is [0], [x + y] is
    [PrimFloat.add] (round to nearest, ties to even) and [x >= 0] is
    [PrimFloat.leb 0 x], which is false for NaN.  Addition of floats is not
    associative, and [ExactArith] does not hold of them: the statements used
    here are the ones made for every number type. *)

#[local] Set Warnings "-inexact-float".

(** Floats are not exact: 0.1 + (0.2 + 0.3) is 0.6 and (0.1 + 0.2) + 0.3 is
    0.6000000000000001; and NaN is neither [<= 0] nor [>= 0]. *)
Example float_not_exact :
  ~ ExactArith 0%float PrimFloat.add PrimFloat.leb /\
  PrimFloat.leb 0 nan = false /\ PrimFloat.leb nan 0 = false.
Proof.
  split; [|split; reflexivity].
  intros [Hassoc _ _ _ _].
  specialize (Hassoc 0.1%float 0.2%float 0.3%float).
  apply (f_equal (fun x => PrimFloat.eqb x 0.6%float)) in Hassoc.
  vm_compute in Hassoc. discriminate Hassoc.
Qed.

(** Three accounts with the initial balances 0.1, 0.2 and 0.3, the third one
    in dollars. *)
Definition float_accounts : @DataStore float := Eval vm_compute in
  let s := init 0%float NoFile in
  let s := update_account s 1 "Main" "Card" 0.1%float in
  let s := (add_account s "Cash" "Cash" "RUB" 0.2%float).1 in
  (add_account s "Dollars" "Deposit" "USD" 0.3%float).1.

(** The same ledger with four transactions: 0.2 and 0.3 on account 1, 0.5 in
    roubles on the dollar account, and -0.1 on account 2. *)
Definition float_ledger : @DataStore float := Eval vm_compute in
  let s := float_accounts in
  let s := (add_transaction s march_7 1 0.2%float "Sales" "stall" None).1 in
  let s := (add_transaction s march_7 1 0.3%float "Sales" "shop" None).1 in
  let s := (add_transaction s march_7 3 0.5%float "Sales" "abroad" None).1 in
  (add_transaction s march_7 2 (-0.1)%float "Rent" "garage" (Some march_9)).1.


Definition float_main : @Account float := mkAccount 1 "Main" "Card" "RUB" 0.1%float.
Definition float_dollars : @Account float := mkAccount 3 "Dollars" "Deposit" "USD" 0.3%float.

(** C1 on [float_ledger]: the balance of account 1 is (0.1 + 0.2) + 0.3, which
    in binary floats is 0.6000000000000001 and not 0.1 + (0.2 + 0.3) = 0.6; the
    rouble transaction on the dollar account 3 does not count; no account has
    the id 9.  And on [ledger], in exact arithmetic. *)
Lemma get_account_balance_spec_witness :
  (get_account_balance 0%float PrimFloat.add float_ledger 1 = 0.6000000000000001%float /\
   get_account_balance 0%float PrimFloat.add float_ledger 3 = 0.3%float /\
   get_account_balance 0%float PrimFloat.add float_ledger 9 = 0%float) /\
  (get_account_balance 0%Z Z.add ledger 1 = (1000 + (500 + (-200 + 0)))%Z /\
   get_account_balance 0%Z Z.add ledger 3 = (10 + 0)%Z /\
   get_account_balance 0%Z Z.add ledger 9 = 0%Z).
Proof.
  pose proof (get_account_balance_spec 0%float PrimFloat.add PrimFloat.leb float_ledger) as F.
  pose proof (get_account_balance_spec 0%Z Z.add Z.leb ledger) as H.
  split; (split; [|split]).
  - exact (proj1 (proj2 (proj2 (proj1 (F 1%Z) float_main eq_refl)))).
  - exact (proj1 (proj2 (proj2 (proj1 (F 3%Z) float_dollars eq_refl)))).
  - apply (proj2 (proj2 (F 9%Z))). intros acc Hin.
    repeat (apply elem_of_cons in Hin as [->|Hin]; [discriminate|]).
    apply elem_of_nil in Hin. contradiction.
  - exact (proj2 (proj2 (proj2 (proj1 (H 1%Z) main_account eq_refl))) Z_exact).
  - exact (proj2 (proj2 (proj2 (proj1 (H 3%Z) dollar_account eq_refl))) Z_exact).
  - apply (proj2 (proj2 (H 9%Z))). intros acc Hin.
    repeat (apply elem_of_cons in Hin as [->|Hin]; [discriminate|]).
    apply elem_of_nil in Hin. contradiction.
Defined.

(** C5 on [float_accounts]: ((0 + 0.1) + 0.2) + 0.3 is 0.6000000000000001 in
    binary floats; on [float_ledger], with the transactions split across the
    accounts; and on [ledger], in exact arithmetic. *)
Lemma get_overall_balance_spec_witness :
  get_overall_balance 0%float PrimFloat.add float_accounts = 0.6000000000000001%float /\
  get_overall_balance 0%float PrimFloat.add float_ledger = 1%float /\
  get_overall_balance 0%Z Z.add ledger = total_of 0%Z Z.add [1300; 120; 10]%Z.
Proof.
  split; [|split].
  - exact (proj1 (get_overall_balance_spec 0%float PrimFloat.add PrimFloat.leb float_accounts)).
  - exact (proj1 (get_overall_balance_spec 0%float PrimFloat.add PrimFloat.leb float_ledger)).
  - exact (proj2 (get_overall_balance_spec 0%Z Z.add Z.leb ledger) Z_exact).
Defined.


